(** * Users service of the LMS backend (src/users/users.service.ts)

    A shallow embedding of [UsersService] and of the two DTO classes it
    consumes.  The service is a thin layer over a Prisma client, so the file
    has three parts:

    - the rows of the persistent store and the typed queries the service
      issues against it ([select] objects, [orderBy], [data] objects);
    - the service operations, written as state-passing computations that
      either resolve with a value or reject with an exception;
    - the properties of the operations. *)

From Stdlib Require Import String List ZArith Bool Lia.
From Stdlib Require Import Sorting.Sorted Sorting.Permutation.
Import ListNotations.
Open Scope string_scope.
Open Scope Z_scope.

(* ------------------------------------------------------------------ *)
(** ** Enumerations of the DTOs *)

(** [enum UserStatus] of update-user.dto.ts. *)
Inductive UserStatus := ACTIVE | INACTIVE | BANNED.

Definition UserStatus_value (s : UserStatus) : string :=
  match s with
  | ACTIVE => "ACTIVE"
  | INACTIVE => "INACTIVE"
  | BANNED => "BANNED"
  end.

(** Membership test of a runtime string in the enumeration. *)
Definition UserStatus_of_string (s : string) : option UserStatus :=
  if String.eqb s "ACTIVE" then Some ACTIVE
  else if String.eqb s "INACTIVE" then Some INACTIVE
  else if String.eqb s "BANNED" then Some BANNED
  else None.

(** [enum Role] of create-user.dto.ts. *)
Inductive Role := ADMIN | INSTRUCTOR | STUDENT.

Definition Role_value (r : Role) : string :=
  match r with
  | ADMIN => "ADMIN"
  | INSTRUCTOR => "INSTRUCTOR"
  | STUDENT => "STUDENT"
  end.

(** [class UpdateUserDto]: every property is optional ([None] is a key that
    is missing or [undefined]).  [status] is kept as the string that reaches
    the service at run time: the TypeScript annotation does not constrain it,
    and [updateStatus] receives a plain [string]. *)
Record UpdateUserDto := {
  upd_name : option string;
  upd_email : option string;
  upd_password : option string;
  upd_role : option Role;
  upd_status : option string;
  upd_assignedCourseIds : option (list string)
}.

(** [class CreateUserDto]. *)
Record CreateUserDto := {
  crt_name : string;
  crt_email : string;
  crt_password : string;
  crt_role : option Role;
  crt_assignedCourseIds : option (list string)
}.

(** The empty update [{}]. *)
Definition empty_update : UpdateUserDto :=
  {| upd_name := None; upd_email := None; upd_password := None;
     upd_role := None; upd_status := None; upd_assignedCourseIds := None |}.

(** The update [{ assignedCourseIds: [] }]. *)
Definition clear_courses : UpdateUserDto :=
  {| upd_name := None; upd_email := None; upd_password := None;
     upd_role := None; upd_status := None;
     upd_assignedCourseIds := Some [] |}.

(** The object [update] is handed at run time.  The class declares six
    properties, but nothing in the service removes the other own keys of the
    object, and [...rest] keeps every key that is not destructured.  Of
    those, the ones that are columns of the user table reach the store:
    [id] and [createdAt]. *)
Record UpdateArgument := {
  arg_dto : UpdateUserDto;               (* the declared properties *)
  arg_id : option string;                (* an own key [id] *)
  arg_createdAt : option Z               (* an own key [createdAt] *)
}.

(** An object with the declared properties only. *)
Definition declared (dto : UpdateUserDto) : UpdateArgument :=
  {| arg_dto := dto; arg_id := None; arg_createdAt := None |}.

Coercion declared : UpdateUserDto >-> UpdateArgument.

(** JavaScript truthiness of a string: only the empty string is falsy. *)
Definition truthy (s : string) : bool :=
  match s with
  | EmptyString => false
  | String _ _ => true
  end.

(* ------------------------------------------------------------------ *)
(** ** Rows of the persistent store *)

Record Lesson := {
  lesson_id : string;
  lesson_title : string;
  lesson_duration : Z;
  lesson_order : Z
}.

Record CourseModule := {
  module_id : string;
  module_title : string;
  module_order : Z;
  module_lessons : list Lesson
}.

Record Course := {
  course_id : string;
  course_title : string;
  course_description : string;
  course_createdAt : Z;
  course_modules : list CourseModule
}.

(** A user row.  [user_password] is the stored credential;
    [user_assignedCourses] holds the course ids of the rows of the
    many-to-many relation that belong to this user. *)
Record User := {
  user_id : string;
  user_name : string;
  user_email : string;
  user_password : string;
  user_role : string;
  user_status : UserStatus;
  user_createdAt : Z;
  user_assignedCourses : list string
}.

(** The two tables.  The order of a list stands for the order in which the
    store hands rows back when a query has no [orderBy]; the source does not
    fix it, and no statement below depends on where a written row stands. *)
Record Store := {
  users : list User;
  courses : list Course
}.

Definition find_user (s : Store) (id : string) : option User :=
  find (fun u => String.eqb (user_id u) id) (users s).

Definition find_user_by_email (s : Store) (email : string) : option User :=
  find (fun u => String.eqb (user_email u) email) (users s).

Definition find_course (s : Store) (id : string) : option Course :=
  find (fun c => String.eqb (course_id c) id) (courses s).

(** The courses a list of relation rows points to (an inner join: a dangling
    id contributes nothing). *)
Definition join_courses (s : Store) (ids : list string) : list Course :=
  flat_map (fun cid => match find_course s cid with
                       | Some c => [c]
                       | None => []
                       end) ids.

Definition assigned_courses (s : Store) (u : User) : list Course :=
  join_courses s (user_assignedCourses u).

(* ------------------------------------------------------------------ *)
(** ** Queries: [orderBy] *)

Inductive SortOrder := asc | desc.

Definition ordered (o : SortOrder) (a b : Z) : Prop :=
  match o with
  | asc => a <= b
  | desc => b <= a
  end.

Definition orderedb (o : SortOrder) (a b : Z) : bool :=
  match o with
  | asc => a <=? b
  | desc => b <=? a
  end.

Section OrderBy.
Context {A : Type} (key : A -> Z) (o : SortOrder).

Fixpoint insert_row (x : A) (l : list A) : list A :=
  match l with
  | [] => [x]
  | y :: r =>
      if orderedb o (key x) (key y) then x :: y :: r
      else y :: insert_row x r
  end.

Fixpoint orderBy (l : list A) : list A :=
  match l with
  | [] => []
  | x :: r => insert_row x (orderBy r)
  end.

(** Row [a] may stand before row [b] in the result. *)
Definition precedes (a b : A) : Prop := ordered o (key a) (key b).
End OrderBy.

Definition order_opt {A} (key : A -> Z) (o : option SortOrder) (l : list A)
  : list A :=
  match o with
  | Some d => orderBy key d l
  | None => l
  end.

(* ------------------------------------------------------------------ *)
(** ** Queries: [select] objects and the projections they produce

    A [select] object lists the keys of the result; a key that is not
    selected is absent from the result ([None] in the view). *)

Definition pick {A} (b : bool) (a : A) : option A :=
  if b then Some a else None.

Record LessonSelect := {
  lsel_id : bool; lsel_title : bool; lsel_duration : bool; lsel_order : bool
}.

Record LessonArgs := {
  largs_orderBy : option SortOrder;      (* orderBy: { order: ... } *)
  largs_select : LessonSelect
}.

Record ModuleSelect := {
  msel_id : bool; msel_title : bool; msel_order : bool;
  msel_lessons : option LessonArgs
}.

Record ModuleArgs := {
  margs_orderBy : option SortOrder;      (* orderBy: { order: ... } *)
  margs_select : ModuleSelect
}.

Record CourseSelect := {
  csel_id : bool; csel_title : bool; csel_description : bool;
  csel_modules : option ModuleArgs
}.

Record CourseArgs := {
  cargs_orderBy : option SortOrder;      (* orderBy: { createdAt: ... } *)
  cargs_select : CourseSelect
}.

Record UserSelect := {
  sel_id : bool; sel_name : bool; sel_email : bool; sel_password : bool;
  sel_status : bool; sel_createdAt : bool; sel_role : bool;
  sel_assignedCourses : option CourseArgs
}.

Record LessonView := {
  lv_id : option string; lv_title : option string;
  lv_duration : option Z; lv_order : option Z
}.

Record ModuleView := {
  mv_id : option string; mv_title : option string; mv_order : option Z;
  mv_lessons : option (list LessonView)
}.

Record CourseView := {
  cv_id : option string; cv_title : option string;
  cv_description : option string;
  cv_modules : option (list ModuleView)
}.

Record UserView := {
  uv_id : option string; uv_name : option string; uv_email : option string;
  uv_password : option string; uv_status : option UserStatus;
  uv_createdAt : option Z; uv_role : option string;
  uv_assignedCourses : option (list CourseView)
}.

Definition project_lesson (sel : LessonSelect) (l : Lesson) : LessonView :=
  {| lv_id := pick (lsel_id sel) (lesson_id l);
     lv_title := pick (lsel_title sel) (lesson_title l);
     lv_duration := pick (lsel_duration sel) (lesson_duration l);
     lv_order := pick (lsel_order sel) (lesson_order l) |}.

Definition query_lessons (a : LessonArgs) (ls : list Lesson)
  : list LessonView :=
  map (project_lesson (largs_select a))
      (order_opt lesson_order (largs_orderBy a) ls).

Definition project_module (sel : ModuleSelect) (m : CourseModule)
  : ModuleView :=
  {| mv_id := pick (msel_id sel) (module_id m);
     mv_title := pick (msel_title sel) (module_title m);
     mv_order := pick (msel_order sel) (module_order m);
     mv_lessons := option_map (fun a => query_lessons a (module_lessons m))
                              (msel_lessons sel) |}.

Definition query_modules (a : ModuleArgs) (ms : list CourseModule)
  : list ModuleView :=
  map (project_module (margs_select a))
      (order_opt module_order (margs_orderBy a) ms).

Definition project_course (sel : CourseSelect) (c : Course) : CourseView :=
  {| cv_id := pick (csel_id sel) (course_id c);
     cv_title := pick (csel_title sel) (course_title c);
     cv_description := pick (csel_description sel) (course_description c);
     cv_modules := option_map (fun a => query_modules a (course_modules c))
                              (csel_modules sel) |}.

Definition query_courses (a : CourseArgs) (cs : list Course)
  : list CourseView :=
  map (project_course (cargs_select a))
      (order_opt course_createdAt (cargs_orderBy a) cs).

Definition project_user (s : Store) (sel : UserSelect) (u : User)
  : UserView :=
  {| uv_id := pick (sel_id sel) (user_id u);
     uv_name := pick (sel_name sel) (user_name u);
     uv_email := pick (sel_email sel) (user_email u);
     uv_password := pick (sel_password sel) (user_password u);
     uv_status := pick (sel_status sel) (user_status u);
     uv_createdAt := pick (sel_createdAt sel) (user_createdAt u);
     uv_role := pick (sel_role sel) (user_role u);
     uv_assignedCourses :=
       option_map (fun a => query_courses a (assigned_courses s u))
                  (sel_assignedCourses sel) |}.

(* ------------------------------------------------------------------ *)
(** ** Asynchronous store computations

    Every service method is an [async] function over the store: it takes the
    store, and either resolves with a value or rejects with an exception,
    and hands back the store as it is afterwards. *)

Inductive Exception :=
| NotFoundException (message : string)   (* thrown by the service *)
| ValidationFailure                      (* value outside an enumeration *)
| UniquenessViolation                    (* unique column written twice *)
| ReferentialIntegrityViolation          (* relation to an absent record *)
| RecordNotFound.                        (* update/delete of an absent row *)

Inductive Outcome (A : Type) :=
| Resolved (a : A)
| Rejected (e : Exception).
Arguments Resolved {A} a.
Arguments Rejected {A} e.

Definition Async (A : Type) : Type := Store -> Outcome A * Store.

Definition resolve {A} (a : A) : Async A := fun s => (Resolved a, s).

Definition throw {A} (e : Exception) : Async A := fun s => (Rejected e, s).

Definition await {A B} (c : Async A) (k : A -> Async B) : Async B :=
  fun s =>
    match c s with
    | (Resolved a, s') => k a s'
    | (Rejected e, s') => (Rejected e, s')
    end.

Notation "x <- c ;; k" := (await c (fun x => k))
  (at level 61, c at next level, right associativity).

Definition rejected {A} (o : Outcome A) : bool :=
  match o with
  | Resolved _ => false
  | Rejected _ => true
  end.

(* ------------------------------------------------------------------ *)
(** ** The store client ([this.prisma.user])

    The operations of the data-access layer the service calls.  A write is
    all-or-nothing: when it is rejected the store is handed back as it was. *)

Inductive UserWhereUniqueInput :=
| where_id (id : string)
| where_email (email : string).

Definition matches (w : UserWhereUniqueInput) (u : User) : bool :=
  match w with
  | where_id id => String.eqb (user_id u) id
  | where_email e => String.eqb (user_email u) e
  end.

(** The [data] object of [user.create]: the keys the service provides. *)
Record UserCreateInput := {
  cd_name : string;
  cd_email : string;
  cd_password : string;
  cd_role : option string;
  cd_connect : option (list string)      (* assignedCourses: { connect } *)
}.

(** The [data] object of [user.update].  Every column can be written; a key
    that is absent leaves its column alone.  [ud_status] is the string the
    caller passed. *)
Record UserUpdateInput := {
  ud_id : option string;
  ud_name : option string;
  ud_email : option string;
  ud_password : option string;
  ud_role : option string;
  ud_status : option string;
  ud_createdAt : option Z;
  ud_set : option (list string)          (* assignedCourses: { set } *)
}.

Definition or_else {A} (o : option A) (d : A) : A :=
  match o with
  | Some a => a
  | None => d
  end.

Fixpoint update_first {A} (p : A -> bool) (f : A -> A) (l : list A)
  : list A :=
  match l with
  | [] => []
  | x :: r => if p x then f x :: r else x :: update_first p f r
  end.

Fixpoint remove_first {A} (p : A -> bool) (l : list A) : list A :=
  match l with
  | [] => []
  | x :: r => if p x then r else x :: remove_first p r
  end.

(** Modelled from the spec: a relation write ([connect], [set]) that names
    a course which does not exist is refused by the store. *)
Definition courses_exist (s : Store) (ids : list string) : bool :=
  forallb (fun cid => match find_course s cid with
                      | Some _ => true
                      | None => false
                      end) ids.

Definition taken {A} (col : User -> A) (eqb : A -> A -> bool)
    (v : option A) (rows : list User) : bool :=
  match v with
  | Some a => existsb (fun u => eqb (col u) a) rows
  | None => false
  end.

(** Modelled from the spec: the schema of the user table is not among the
    sources; its [status] column is the enumeration ACTIVE | INACTIVE |
    BANNED, and the client refuses a write whose value is not a member.
    The status a [data] object asks for: [Some None] when the key is absent,
    [None] when its value is outside the enumeration. *)
Definition checked_status (v : option string) : option (option UserStatus) :=
  match v with
  | None => Some None
  | Some str => option_map Some (UserStatus_of_string str)
  end.

Definition write_user (d : UserUpdateInput) (st : option UserStatus)
    (u : User) : User :=
  {| user_id := or_else (ud_id d) (user_id u);
     user_name := or_else (ud_name d) (user_name u);
     user_email := or_else (ud_email d) (user_email u);
     user_password := or_else (ud_password d) (user_password u);
     user_role := or_else (ud_role d) (user_role u);
     user_status := or_else st (user_status u);
     user_createdAt := or_else (ud_createdAt d) (user_createdAt u);
     user_assignedCourses :=
       match ud_set d with
       | Some ids => nodup string_dec ids
       | None => user_assignedCourses u
       end |}.

Section Client.
(** Column defaults of the user table: the schema is not part of the
    sources at hand, so they are parameters. *)
Variable default_role : string.
Variable default_status : UserStatus.

Definition user_findUnique (w : UserWhereUniqueInput) (sel : UserSelect)
  : Async (option UserView) :=
  fun s => (Resolved (option_map (project_user s sel)
                                 (find (matches w) (users s))), s).

Definition user_findMany (sel : UserSelect) : Async (list UserView) :=
  fun s => (Resolved (map (project_user s sel) (users s)), s).

(** [uuid] and [now] are the generated primary key and the clock reading
    the store fills in for the new row. *)
Definition user_create (uuid : string) (now : Z) (d : UserCreateInput)
    (sel : UserSelect) : Async UserView :=
  fun s =>
    if taken user_id String.eqb (Some uuid) (users s)
       || taken user_email String.eqb (Some (cd_email d)) (users s)
    then (Rejected UniquenessViolation, s)
    else if negb (courses_exist s (or_else (cd_connect d) []))
    then (Rejected ReferentialIntegrityViolation, s)
    else
      let u := {| user_id := uuid;
                  user_name := cd_name d;
                  user_email := cd_email d;
                  user_password := cd_password d;
                  user_role := or_else (cd_role d) default_role;
                  user_status := default_status;
                  user_createdAt := now;
                  user_assignedCourses :=
                    nodup string_dec (or_else (cd_connect d) []) |} in
      let s' := {| users := users s ++ [u]; courses := courses s |} in
      (Resolved (project_user s' sel u), s').

Definition user_update (w : UserWhereUniqueInput) (d : UserUpdateInput)
    (sel : UserSelect) : Async UserView :=
  fun s =>
    match checked_status (ud_status d) with
    | None => (Rejected ValidationFailure, s)
    | Some st =>
        match find (matches w) (users s) with
        | None => (Rejected RecordNotFound, s)
        | Some u =>
            let others := remove_first (matches w) (users s) in
            if taken user_id String.eqb (ud_id d) others
               || taken user_email String.eqb (ud_email d) others
            then (Rejected UniquenessViolation, s)
            else if negb (courses_exist s (or_else (ud_set d) []))
            then (Rejected ReferentialIntegrityViolation, s)
            else
              let u' := write_user d st u in
              let s' := {| users := update_first (matches w)
                                                 (write_user d st) (users s);
                           courses := courses s |} in
              (Resolved (project_user s' sel u'), s')
        end
    end.

Definition user_delete (w : UserWhereUniqueInput) (sel : UserSelect)
  : Async UserView :=
  fun s =>
    match find (matches w) (users s) with
    | None => (Rejected RecordNotFound, s)
    | Some u =>
        (Resolved (project_user s sel u),
         {| users := remove_first (matches w) (users s);
            courses := courses s |})
    end.
End Client.

(* ------------------------------------------------------------------ *)
(** ** The [select] objects written in the service *)

(** [assignedCourses: { select: { id: true, title: true } }]. *)
Definition course_id_title : CourseArgs :=
  {| cargs_orderBy := None;
     cargs_select := {| csel_id := true; csel_title := true;
                        csel_description := false; csel_modules := None |} |}.

(** The [select] of [create], [findAll], [findOne] and [update]. *)
Definition select_user : UserSelect :=
  {| sel_id := true; sel_name := true; sel_email := true;
     sel_password := false; sel_status := true; sel_createdAt := true;
     sel_role := true; sel_assignedCourses := Some course_id_title |}.

(** The [select] of [findByEmail]. *)
Definition select_credentials : UserSelect :=
  {| sel_id := true; sel_name := true; sel_email := true;
     sel_password := true; sel_status := true; sel_createdAt := false;
     sel_role := true; sel_assignedCourses := Some course_id_title |}.

(** The [select] of [updateStatus] and [remove]. *)
Definition select_scalars : UserSelect :=
  {| sel_id := true; sel_name := true; sel_email := true;
     sel_password := false; sel_status := true; sel_createdAt := true;
     sel_role := true; sel_assignedCourses := None |}.

(** The [select] of [getUserCourses]. *)
Definition lessons_by_order : LessonArgs :=
  {| largs_orderBy := Some asc;
     largs_select := {| lsel_id := true; lsel_title := true;
                        lsel_duration := true; lsel_order := true |} |}.

Definition modules_by_order : ModuleArgs :=
  {| margs_orderBy := Some asc;
     margs_select := {| msel_id := true; msel_title := true;
                        msel_order := true;
                        msel_lessons := Some lessons_by_order |} |}.

Definition courses_newest_first : CourseArgs :=
  {| cargs_orderBy := Some desc;
     cargs_select := {| csel_id := true; csel_title := true;
                        csel_description := true;
                        csel_modules := Some modules_by_order |} |}.

Definition select_curriculum : UserSelect :=
  {| sel_id := true; sel_name := false; sel_email := false;
     sel_password := false; sel_status := false; sel_createdAt := false;
     sel_role := false; sel_assignedCourses := Some courses_newest_first |}.

(** What a call without [select] returns: every scalar column. *)
Definition select_default : UserSelect :=
  {| sel_id := true; sel_name := true; sel_email := true;
     sel_password := true; sel_status := true; sel_createdAt := true;
     sel_role := true; sel_assignedCourses := None |}.

(* ------------------------------------------------------------------ *)
(** ** [class UsersService] *)

Module UsersService.
Section Methods.
(** [bcrypt.hash(data, rounds)] draws a salt and hashes with it; the salt
    is made an argument. *)
Variable bcrypt_hash : string -> nat -> string -> string.
Variable default_role : string.
Variable default_status : UserStatus.

Definition not_found (id : string) : Exception :=
  NotFoundException ("User with ID " ++ id ++ " not found").

(** The [data] object of [create]. *)
Definition create_data (salt : string) (createUserDto : CreateUserDto)
  : UserCreateInput :=
  let hashedPassword :=
    bcrypt_hash (crt_password createUserDto) 10%nat salt in
  {| cd_name := crt_name createUserDto;
     cd_email := crt_email createUserDto;
     cd_role := option_map Role_value (crt_role createUserDto);
     cd_password := hashedPassword;
     cd_connect :=
       match crt_assignedCourseIds createUserDto with
       | Some ((_ :: _) as assignedCourseIds) => Some assignedCourseIds
       | _ => None
       end |}.

Definition create (uuid : string) (now : Z) (salt : string)
    (createUserDto : CreateUserDto) : Async UserView :=
  user_create default_role default_status uuid now
              (create_data salt createUserDto) select_user.

Definition findAll : Async (list UserView) :=
  user_findMany select_user.

Definition findOne (id : string) : Async UserView :=
  user <- user_findUnique (where_id id) select_user ;;
  match user with
  | None => throw (not_found id)
  | Some user => resolve user
  end.

Definition findByEmail (email : string) : Async (option UserView) :=
  user_findUnique (where_email email) select_credentials.

(** [cond && { key: v }] spread into an object: the key is written when
    the string is present and truthy. *)
Definition when_truthy (v : option string) : option string :=
  match v with
  | Some str => if truthy str then Some str else None
  | None => None
  end.

(** The [data] object of [update]. *)
Definition update_data (salt : string) (updateUserDto : UpdateArgument)
  : UserUpdateInput :=
  let newPassword := upd_password (arg_dto updateUserDto) in
  let hashedPassword :=
    match when_truthy newPassword with
    | Some p => Some (bcrypt_hash p 10%nat salt)
    | None => None
    end in
  {| (* ...rest: every own key but password, assignedCourseIds, status *)
     ud_id := arg_id updateUserDto;
     ud_createdAt := arg_createdAt updateUserDto;
     ud_name := upd_name (arg_dto updateUserDto);
     ud_email := upd_email (arg_dto updateUserDto);
     ud_role := option_map Role_value (upd_role (arg_dto updateUserDto));
     (* ...(status && { status }) *)
     ud_status := when_truthy (upd_status (arg_dto updateUserDto));
     (* ...(hashedPassword && { password: hashedPassword }) *)
     ud_password := when_truthy hashedPassword;
     (* Array.isArray(assignedCourseIds) ? { assignedCourses: { set } } : {} *)
     ud_set := upd_assignedCourseIds (arg_dto updateUserDto) |}.

Definition update (salt : string) (id : string)
    (updateUserDto : UpdateArgument) : Async UserView :=
  exists_ <- user_findUnique (where_id id) select_default ;;
  match exists_ with
  | None => throw (not_found id)
  | Some _ =>
      user_update (where_id id) (update_data salt updateUserDto) select_user
  end.

(** The [data] object of [updateStatus]. *)
Definition status_data (status : string) : UserUpdateInput :=
  {| ud_id := None; ud_name := None; ud_email := None;
     ud_password := None; ud_role := None; ud_status := Some status;
     ud_createdAt := None; ud_set := None |}.

Definition updateStatus (id : string) (status : string) : Async UserView :=
  exists_ <- user_findUnique (where_id id) select_default ;;
  match exists_ with
  | None => throw (not_found id)
  | Some _ => user_update (where_id id) (status_data status) select_scalars
  end.

Definition getUserCourses (userId : string)
  : Async (option (list CourseView)) :=
  userWithCourses <- user_findUnique (where_id userId) select_curriculum ;;
  match userWithCourses with
  | None => throw (not_found userId)
  | Some userWithCourses => resolve (uv_assignedCourses userWithCourses)
  end.

Definition remove (id : string) : Async UserView :=
  exists_ <- user_findUnique (where_id id) select_default ;;
  match exists_ with
  | None => throw (not_found id)
  | Some _ => user_delete (where_id id) select_scalars
  end.

(** A call of any method of the service, and the store it leaves. *)
Inductive Request :=
| call_create (uuid : string) (now : Z) (salt : string) (dto : CreateUserDto)
| call_findAll
| call_findOne (id : string)
| call_findByEmail (email : string)
| call_update (salt : string) (id : string) (dto : UpdateArgument)
| call_updateStatus (id : string) (status : string)
| call_getUserCourses (userId : string)
| call_remove (id : string).

Definition store_after (r : Request) (s : Store) : Store :=
  match r with
  | call_create uuid now salt dto => snd (create uuid now salt dto s)
  | call_findAll => snd (findAll s)
  | call_findOne id => snd (findOne id s)
  | call_findByEmail email => snd (findByEmail email s)
  | call_update salt id dto => snd (update salt id dto s)
  | call_updateStatus id status => snd (updateStatus id status s)
  | call_getUserCourses userId => snd (getUserCourses userId s)
  | call_remove id => snd (remove id s)
  end.
End Methods.
End UsersService.

(* ------------------------------------------------------------------ *)
(** ** Vocabulary of the statements *)

(** The store takes the write [d] on the row [w]: the status asked for is a
    member of the enumeration, the unique columns written are free on the
    other rows, and every course of a [set] exists. *)
Definition accepts (s : Store) (w : UserWhereUniqueInput)
    (d : UserUpdateInput) : bool :=
  match checked_status (ud_status d) with
  | None => false
  | Some _ =>
      negb (taken user_id String.eqb (ud_id d)
                  (remove_first (matches w) (users s)))
      && negb (taken user_email String.eqb (ud_email d)
                     (remove_first (matches w) (users s)))
      && courses_exist s (or_else (ud_set d) [])
  end.

(** The store takes a new row with key [uuid] for the [data] object [d]. *)
Definition admits (s : Store) (uuid : string) (d : UserCreateInput) : bool :=
  negb (taken user_id String.eqb (Some uuid) (users s))
  && negb (taken user_email String.eqb (Some (cd_email d)) (users s))
  && courses_exist s (or_else (cd_connect d) []).

(** The store once the write [d], with checked status [st], is applied to
    the row [w]. *)
Definition written (s : Store) (w : UserWhereUniqueInput)
    (d : UserUpdateInput) (st : option UserStatus) : Store :=
  {| users := update_first (matches w) (write_user d st) (users s);
     courses := courses s |}.

(** The store once the row [w] is deleted. *)
Definition deleted (s : Store) (w : UserWhereUniqueInput) : Store :=
  {| users := remove_first (matches w) (users s); courses := courses s |}.

(** A result that carries no [password] key. *)
Definition no_password (o : Outcome UserView) : Prop :=
  match o with
  | Resolved v => uv_password v = None
  | Rejected _ => True
  end.

(** A row keeps its identity: same [id], same [createdAt]. *)
Definition same_identity (u u' : User) : Prop :=
  user_id u' = user_id u /\ user_createdAt u' = user_createdAt u.

(** The [id] and the [createdAt] of a row. *)
Definition identity (u : User) : string * Z :=
  (user_id u, user_createdAt u).

(** A call whose argument, if it is an update, carries the declared
    properties only. *)
Definition declared_call (r : UsersService.Request) : Prop :=
  match r with
  | UsersService.call_update _ _ a => arg_id a = None /\ arg_createdAt a = None
  | _ => True
  end.

(** The course table holds a course with this id. *)
Definition in_course_table (s : Store) (cid : string) : bool :=
  existsb (fun c => String.eqb (course_id c) cid) (courses s).

(** What the curriculum query shows of a lesson, of a module with its
    lessons, and of a course with its modules: every selected key with the
    value of the row, the lessons of the module and the modules of the
    course all there and in ascending [order]. *)
Definition shows_lesson (l : Lesson) (lv : LessonView) : Prop :=
  lv = {| lv_id := Some (lesson_id l); lv_title := Some (lesson_title l);
          lv_duration := Some (lesson_duration l);
          lv_order := Some (lesson_order l) |}.

Definition shows_module (m : CourseModule) (mv : ModuleView) : Prop :=
  mv_id mv = Some (module_id m)
  /\ mv_title mv = Some (module_title m)
  /\ mv_order mv = Some (module_order m)
  /\ exists ls lvs,
       mv_lessons mv = Some lvs
       /\ Permutation ls (module_lessons m)
       /\ Sorted (fun a b => lesson_order a <= lesson_order b) ls
       /\ Forall2 shows_lesson ls lvs.

Definition shows_course (c : Course) (cv : CourseView) : Prop :=
  cv_id cv = Some (course_id c)
  /\ cv_title cv = Some (course_title c)
  /\ cv_description cv = Some (course_description c)
  /\ exists ms mvs,
       cv_modules cv = Some mvs
       /\ Permutation ms (course_modules c)
       /\ Sorted (fun a b => module_order a <= module_order b) ms
       /\ Forall2 shows_module ms mvs.

(** The keys read off a list of views are all present and ascend. *)
Definition ascending {A} (key : A -> option Z) (l : list A) : Prop :=
  exists ks, map key l = map Some ks /\ Sorted Z.le ks.

(** The view of a course under [{ id: true, title: true }]. *)
Definition id_title_of (c : Course) : CourseView :=
  {| cv_id := Some (course_id c); cv_title := Some (course_title c);
     cv_description := None; cv_modules := None |}.

(** The row [user.create] inserts for the [data] object [d]. *)
Definition new_row (default_role : string) (default_status : UserStatus)
    (uuid : string) (now : Z) (d : UserCreateInput) : User :=
  {| user_id := uuid;
     user_name := cd_name d;
     user_email := cd_email d;
     user_password := cd_password d;
     user_role := or_else (cd_role d) default_role;
     user_status := default_status;
     user_createdAt := now;
     user_assignedCourses := nodup string_dec (or_else (cd_connect d) []) |}.

(** The store with one more user row. *)
Definition inserted (s : Store) (u : User) : Store :=
  {| users := users s ++ [u]; courses := courses s |}.

(** The unique columns of the user table hold no value twice. *)
Definition unique_keys (s : Store) : Prop :=
  NoDup (map user_id (users s)) /\ NoDup (map user_email (users s)).

(** Every course a user is associated with is a row of the course table. *)
Definition no_dangling (s : Store) : Prop :=
  Forall (fun u => courses_exist s (user_assignedCourses u) = true)
         (users s).

(** Whether a call of the service is rejected. *)
Definition call_rejected
    (bcrypt_hash : string -> nat -> string -> string)
    (default_role : string) (default_status : UserStatus)
    (r : UsersService.Request) (s : Store) : bool :=
  match r with
  | UsersService.call_create uuid now salt dto =>
      rejected (fst (UsersService.create bcrypt_hash default_role
                       default_status uuid now salt dto s))
  | UsersService.call_findAll => rejected (fst (UsersService.findAll s))
  | UsersService.call_findOne id => rejected (fst (UsersService.findOne id s))
  | UsersService.call_findByEmail email =>
      rejected (fst (UsersService.findByEmail email s))
  | UsersService.call_update salt id dto =>
      rejected (fst (UsersService.update bcrypt_hash salt id dto s))
  | UsersService.call_updateStatus id status =>
      rejected (fst (UsersService.updateStatus id status s))
  | UsersService.call_getUserCourses userId =>
      rejected (fst (UsersService.getUserCourses userId s))
  | UsersService.call_remove id => rejected (fst (UsersService.remove id s))
  end.

(** The store a sequence of calls leaves, one call after the other. *)
Definition store_after_all
    (bcrypt_hash : string -> nat -> string -> string)
    (default_role : string) (default_status : UserStatus)
    (rs : list UsersService.Request) (s : Store) : Store :=
  fold_left (fun s0 r => UsersService.store_after bcrypt_hash default_role
                           default_status r s0) rs s.

(** The update [{ status }]. *)
Definition only_status (status : string) : UpdateUserDto :=
  {| upd_name := None; upd_email := None; upd_password := None;
     upd_role := None; upd_status := Some status;
     upd_assignedCourseIds := None |}.

(** A projection without its [assignedCourses] key. *)
Definition without_courses (v : UserView) : UserView :=
  {| uv_id := uv_id v; uv_name := uv_name v; uv_email := uv_email v;
     uv_password := uv_password v; uv_status := uv_status v;
     uv_createdAt := uv_createdAt v; uv_role := uv_role v;
     uv_assignedCourses := None |}.

(** ** Validators of [UpdateUserDto.status] (update-user.dto.ts)

    [@IsOptional()] lets a property that is missing skip its other
    validators; [@IsEnum(UserStatus)] asks for one of the values of the
    enumeration. *)
Definition IsOptional {A} (validator : A -> bool) (value : option A) : bool :=
  match value with
  | None => true
  | Some a => validator a
  end.

Definition IsEnum_UserStatus (value : string) : bool :=
  match UserStatus_of_string value with
  | Some _ => true
  | None => false
  end.

Definition status_validated (dto : UpdateUserDto) : bool :=
  IsOptional IsEnum_UserStatus (upd_status dto).

(* ------------------------------------------------------------------ *)
(** ** Sample data *)

Module Sample.
(** A stand-in for the credential hasher: the salt and the plaintext
    behind a version-and-cost prefix. *)
Definition hash (data : string) (rounds : nat) (salt : string) : string :=
  "$2a$10$" ++ salt ++ data.

Definition intro_lessons : list Lesson :=
  [ {| lesson_id := "l2"; lesson_title := "Loops";
       lesson_duration := 30; lesson_order := 2 |};
    {| lesson_id := "l1"; lesson_title := "Values";
       lesson_duration := 20; lesson_order := 1 |} ].

Definition c1 : Course :=
  {| course_id := "c1"; course_title := "Programming";
     course_description := "Basics"; course_createdAt := 100;
     course_modules :=
       [ {| module_id := "m2"; module_title := "Practice";
            module_order := 2; module_lessons := [] |};
         {| module_id := "m1"; module_title := "Intro";
            module_order := 1; module_lessons := intro_lessons |} ] |}.

Definition c2 : Course :=
  {| course_id := "c2"; course_title := "Databases";
     course_description := "Relations"; course_createdAt := 200;
     course_modules := [] |}.

Definition ann : User :=
  {| user_id := "u1"; user_name := "Ann"; user_email := "ann@x.com";
     user_password := "$2a$10$saltpw123"; user_role := "STUDENT";
     user_status := ACTIVE; user_createdAt := 10;
     user_assignedCourses := ["c1"; "c2"] |}.

Definition bob : User :=
  {| user_id := "u2"; user_name := "Bob"; user_email := "bob@x.com";
     user_password := "$2a$10$pepperhunter2"; user_role := "ADMIN";
     user_status := INACTIVE; user_createdAt := 20;
     user_assignedCourses := [] |}.

Definition store : Store :=
  {| users := [ann; bob]; courses := [c1; c2] |}.

Definition new_user : CreateUserDto :=
  {| crt_name := "Cid"; crt_email := "cid@x.com"; crt_password := "pw123";
     crt_role := None; crt_assignedCourseIds := Some ["c1"] |}.

Definition only_course_c2 : UpdateUserDto :=
  {| upd_name := Some "Ann B."; upd_email := None; upd_password := None;
     upd_role := None; upd_status := None;
     upd_assignedCourseIds := Some ["c2"; "c2"] |}.

Definition rename : UpdateUserDto :=
  {| upd_name := Some "Ann B."; upd_email := None; upd_password := None;
     upd_role := None; upd_status := None;
     upd_assignedCourseIds := None |}.

Definition empty_password : UpdateUserDto :=
  {| upd_name := None; upd_email := None; upd_password := Some "";
     upd_role := None; upd_status := None;
     upd_assignedCourseIds := None |}.

Definition empty_status : UpdateUserDto :=
  {| upd_name := None; upd_email := None; upd_password := None;
     upd_role := None; upd_status := Some "";
     upd_assignedCourseIds := None |}.

Definition unknown_status : UpdateUserDto :=
  {| upd_name := None; upd_email := None; upd_password := None;
     upd_role := None; upd_status := Some "SUSPENDED";
     upd_assignedCourseIds := None |}.

(** [{ id: "u7" }]: an object with a key the class does not declare. *)
Definition with_id_key : UpdateArgument :=
  {| arg_dto := empty_update; arg_id := Some "u7"; arg_createdAt := None |}.
End Sample.

(* ================================================================== *)
(** * Properties *)

Import UsersService.

(** ** Lists: the first row that matches *)

Section FirstMatch.
Context {A : Type}.
Implicit Types (p : A -> bool) (f : A -> A) (l : list A).

Lemma find_update_first p f l :
  (forall x, p (f x) = p x) ->
  find p (update_first p f l) = option_map f (find p l).
Proof.
  intros keep. induction l as [|x r IH]; simpl; [reflexivity|].
  destruct (p x) eqn:px; simpl.
  - now rewrite keep, px.
  - now rewrite px.
Qed.

Lemma update_first_Forall2 (R : A -> A -> Prop) p f l :
  (forall x, R x x) -> (forall x, R x (f x)) ->
  Forall2 R l (update_first p f l).
Proof.
  intros refl step. induction l as [|x r IH]; simpl; [constructor|].
  destruct (p x).
  - constructor; [apply step|]. clear IH.
    induction r; constructor; auto.
  - constructor; auto.
Qed.

Lemma In_remove_first p l x : In x (remove_first p l) -> In x l.
Proof.
  induction l as [|y r IH]; simpl; [tauto|].
  destruct (p y); simpl; intuition.
Qed.
End FirstMatch.

(** ** [orderBy] sorts, and keeps the rows *)

Section OrderByFacts.
Context {A : Type} (key : A -> Z) (o : SortOrder).

Lemma orderedb_true a b : orderedb o a b = true -> ordered o a b.
Proof. destruct o; simpl; lia. Qed.

Lemma orderedb_false a b : orderedb o a b = false -> ordered o b a.
Proof. destruct o; simpl; lia. Qed.

Lemma insert_row_perm x l : Permutation (insert_row key o x l) (x :: l).
Proof.
  induction l as [|y r IH]; simpl; [reflexivity|].
  destruct (orderedb o (key x) (key y)); [reflexivity|].
  rewrite IH. apply perm_swap.
Qed.

Lemma orderBy_perm l : Permutation (orderBy key o l) l.
Proof.
  induction l as [|x r IH]; simpl; [reflexivity|].
  rewrite insert_row_perm. now constructor.
Qed.

Lemma insert_row_head x y l :
  precedes key o y x ->
  HdRel (precedes key o) y l ->
  HdRel (precedes key o) y (insert_row key o x l).
Proof.
  intros yx hd. destruct l as [|z r]; simpl.
  - now constructor.
  - destruct (orderedb o (key x) (key z)); constructor; auto.
    now inversion hd.
Qed.

Lemma insert_row_sorted x l :
  Sorted (precedes key o) l -> Sorted (precedes key o) (insert_row key o x l).
Proof.
  induction 1 as [|y r sorted IH hd]; simpl.
  - repeat constructor.
  - destruct (orderedb o (key x) (key y)) eqn:cmp.
    + constructor; [now constructor|].
      constructor. now apply orderedb_true.
    + constructor; [exact IH|].
      apply insert_row_head; [|exact hd].
      now apply orderedb_false.
Qed.

Lemma orderBy_sorted l : Sorted (precedes key o) (orderBy key o l).
Proof.
  induction l as [|x r IH]; simpl; [constructor|].
  now apply insert_row_sorted.
Qed.
End OrderByFacts.

Lemma Sorted_map {A B} (R : B -> B -> Prop) (f : A -> B) (l : list A) :
  Sorted (fun a b => R (f a) (f b)) l -> Sorted R (map f l).
Proof.
  induction 1 as [|x r sorted IH hd]; simpl; constructor; auto.
  destruct hd; simpl; constructor; auto.
Qed.

(** ** The store client *)

Lemma findUnique_id s id sel :
  user_findUnique (where_id id) sel s
  = (Resolved (option_map (project_user s sel) (find_user s id)), s).
Proof. reflexivity. Qed.

Lemma findUnique_email s email sel :
  user_findUnique (where_email email) sel s
  = (Resolved (option_map (project_user s sel) (find_user_by_email s email)),
     s).
Proof. reflexivity. Qed.

(** ** The curriculum query of [getUserCourses] *)

Lemma query_lessons_ascending ls :
  ascending lv_order (query_lessons lessons_by_order ls).
Proof.
  exists (map lesson_order (orderBy lesson_order asc ls)). split.
  - unfold query_lessons. simpl. now rewrite !map_map.
  - apply Sorted_map. apply (orderBy_sorted lesson_order asc).
Qed.

Lemma query_modules_ascending ms :
  ascending mv_order (query_modules modules_by_order ms).
Proof.
  exists (map module_order (orderBy module_order asc ms)). split.
  - unfold query_modules. simpl. now rewrite !map_map.
  - apply Sorted_map. apply (orderBy_sorted module_order asc).
Qed.

Lemma query_modules_lessons ms :
  Forall (fun mv => exists ls, mv_lessons mv = Some ls
                               /\ ascending lv_order ls)
         (query_modules modules_by_order ms).
Proof.
  unfold query_modules. apply Forall_forall. intros mv inmv.
  apply in_map_iff in inmv. destruct inmv as (m & <- & _).
  simpl. eexists. split; [reflexivity|]. apply query_lessons_ascending.
Qed.

Lemma Forall2_map_shown {A B} (R : A -> B -> Prop) (f : A -> B) l :
  (forall x, R x (f x)) -> Forall2 R l (map f l).
Proof. intros shown. induction l; simpl; constructor; auto. Qed.

Lemma query_lessons_shows ls :
  exists sorted,
    Permutation sorted ls
    /\ Sorted (fun a b => lesson_order a <= lesson_order b) sorted
    /\ Forall2 shows_lesson sorted (query_lessons lessons_by_order ls).
Proof.
  exists (orderBy lesson_order asc ls).
  split; [apply orderBy_perm|].
  split; [apply (orderBy_sorted lesson_order asc)|].
  unfold query_lessons. apply Forall2_map_shown. intros l. reflexivity.
Qed.

Lemma project_module_shows m :
  shows_module m (project_module (margs_select modules_by_order) m).
Proof.
  split; [reflexivity|]. split; [reflexivity|]. split; [reflexivity|].
  destruct (query_lessons_shows (module_lessons m))
    as (sorted & same & ascend & shown).
  exists sorted. eexists. split; [reflexivity|]. auto.
Qed.

Lemma project_course_shows c :
  shows_course c (project_course (cargs_select courses_newest_first) c).
Proof.
  split; [reflexivity|]. split; [reflexivity|]. split; [reflexivity|].
  exists (orderBy module_order asc (course_modules c)). eexists.
  split; [reflexivity|].
  split; [apply orderBy_perm|].
  split; [apply (orderBy_sorted module_order asc)|].
  unfold query_modules. apply Forall2_map_shown. apply project_module_shows.
Qed.

(** *** The join with the course table *)

Lemma join_courses_in_table s ids c :
  In c (join_courses s ids) -> In c (courses s).
Proof.
  unfold join_courses. rewrite in_flat_map. intros (cid & _ & inc).
  destruct (find_course s cid) as [c'|] eqn:found; [|contradiction].
  destruct inc as [<-|[]]. now apply find_some in found.
Qed.

Lemma join_courses_ids_present s ids :
  map course_id (join_courses s ids) = filter (in_course_table s) ids.
Proof.
  unfold join_courses, in_course_table, find_course.
  induction ids as [|cid r IH]; simpl; [reflexivity|].
  destruct (find _ (courses s)) as [c|] eqn:found.
  - pose proof (find_some _ _ found) as [inc same].
    assert (existsb (fun c0 => String.eqb (course_id c0) cid) (courses s)
            = true) as there
      by (apply existsb_exists; exists c; auto).
    rewrite there. simpl. rewrite IH. f_equal. now apply String.eqb_eq.
  - assert (existsb (fun c0 => String.eqb (course_id c0) cid) (courses s)
            = false) as absent.
    { apply not_true_is_false. intros there.
      apply existsb_exists in there. destruct there as (c & inc & same).
      rewrite (find_none _ _ found c inc) in same. discriminate same. }
    rewrite absent. simpl. exact IH.
Qed.

Lemma join_courses_ids s ids :
  courses_exist s ids = true -> map course_id (join_courses s ids) = ids.
Proof.
  unfold join_courses, courses_exist.
  induction ids as [|cid r IH]; simpl; [reflexivity|].
  destruct (find_course s cid) as [c|] eqn:found; [|discriminate].
  intros exist. simpl. rewrite (IH exist). f_equal.
  apply find_some in found. now apply String.eqb_eq.
Qed.

Lemma courses_exist_nodup s ids :
  courses_exist s ids = true ->
  courses_exist s (nodup string_dec ids) = true.
Proof.
  unfold courses_exist. rewrite !forallb_forall.
  intros all cid incid. apply all. now apply nodup_In in incid.
Qed.

(** C2 — getUserCourses(userId), for a user of the store, resolves with the
    user's associated courses and leaves the store as it was.  The courses
    returned are rows of the course table, one for each of the user's
    associations that the table holds, in descending order of their
    creation time.  Each is shown with its id, title and description and
    with its modules: all the modules of the course, in ascending order of
    their [order] value, each with its id, title and order and with all its
    lessons, in ascending order of their [order] value, each with its id,
    title, duration and order. *)
Theorem getUserCourses_ordered (s : Store) (userId : string) (u : User) :
  find_user s userId = Some u ->
  exists rows cvs,
    getUserCourses userId s = (Resolved (Some cvs), s)
    /\ Forall2 shows_course rows cvs
    /\ Sorted (fun a b => course_createdAt b <= course_createdAt a) rows
    /\ Forall (fun c => In c (courses s)) rows
    /\ Permutation (map course_id rows)
                   (filter (in_course_table s) (user_assignedCourses u))
    /\ cvs = map (project_course (cargs_select courses_newest_first)) rows
    /\ Permutation rows (assigned_courses s u)
    /\ Forall (fun cv =>
         exists ms, cv_modules cv = Some ms
           /\ ascending mv_order ms
           /\ Forall (fun mv => exists ls, mv_lessons mv = Some ls
                                           /\ ascending lv_order ls) ms)
         cvs.
Proof.
  intros found.
  exists (orderBy course_createdAt desc (assigned_courses s u)).
  eexists. split.
  { unfold getUserCourses, await. rewrite findUnique_id, found. reflexivity. }
  split.
  { unfold query_courses. apply Forall2_map_shown.
    apply project_course_shows. }
  split; [apply (orderBy_sorted course_createdAt desc)|].
  split.
  { apply Forall_forall. intros c inc.
    apply (Permutation_in _ (orderBy_perm course_createdAt desc _)) in inc.
    now apply join_courses_in_table in inc. }
  split.
  { rewrite <- join_courses_ids_present.
    apply Permutation_map, orderBy_perm. }
  split; [reflexivity|].
  split; [apply orderBy_perm|].
  apply Forall_forall. intros cv incv.
  apply in_map_iff in incv. destruct incv as (c & <- & _).
  simpl. eexists. split; [reflexivity|].
  split; [apply query_modules_ascending | apply query_modules_lessons].
Qed.

Lemma getUserCourses_ordered_witness :
  find_user Sample.store "u1" = Some Sample.ann
  /\ exists rows cvs,
       getUserCourses "u1" Sample.store = (Resolved (Some cvs), Sample.store)
       /\ Forall2 shows_course rows cvs
       /\ Sorted (fun a b => course_createdAt b <= course_createdAt a) rows
       /\ Forall (fun c => In c (courses Sample.store)) rows
       /\ Permutation (map course_id rows) ["c1"; "c2"]
       /\ cvs = map (project_course (cargs_select courses_newest_first)) rows
       /\ Permutation rows (assigned_courses Sample.store Sample.ann)
       /\ Forall (fun cv =>
            exists ms, cv_modules cv = Some ms
              /\ ascending mv_order ms
              /\ Forall (fun mv => exists ls, mv_lessons mv = Some ls
                                              /\ ascending lv_order ls) ms)
            cvs.
Proof.
  split; [reflexivity|].
  apply (getUserCourses_ordered Sample.store "u1" Sample.ann). reflexivity.
Defined.

(** ** Writes of the store client: all or nothing *)

Lemma user_update_cases w d sel s :
  (exists e, user_update w d sel s = (Rejected e, s))
  \/ (exists st u,
        checked_status (ud_status d) = Some st
        /\ find (matches w) (users s) = Some u
        /\ user_update w d sel s
           = (Resolved (project_user (written s w d st) sel
                                     (write_user d st u)),
              written s w d st)).
Proof.
  unfold user_update.
  destruct (checked_status (ud_status d)) as [st|]; [|left; eauto].
  destruct (find (matches w) (users s)) as [u|]; [|left; eauto].
  destruct (_ || _); [left; eauto|].
  destruct (negb _); [left; eauto|].
  right. exists st, u. repeat split.
Qed.

Lemma user_update_accepted w d sel s u :
  find (matches w) (users s) = Some u ->
  accepts s w d = true ->
  exists st,
    checked_status (ud_status d) = Some st
    /\ user_update w d sel s
       = (Resolved (project_user (written s w d st) sel (write_user d st u)),
          written s w d st).
Proof.
  unfold accepts, user_update. intros found ok.
  destruct (checked_status (ud_status d)) as [st|]; [|discriminate].
  rewrite found. exists st. split; [reflexivity|].
  apply andb_true_iff in ok. destruct ok as [ok exist].
  apply andb_true_iff in ok. destruct ok as [free_id free_email].
  apply negb_true_iff in free_id, free_email.
  now rewrite free_id, free_email, exist.
Qed.

Lemma user_update_invalid_status w d sel s :
  checked_status (ud_status d) = None ->
  user_update w d sel s = (Rejected ValidationFailure, s).
Proof. unfold user_update. now intros ->. Qed.

Lemma user_delete_cases w sel s :
  user_delete w sel s = (Rejected RecordNotFound, s)
  \/ (exists u,
        find (matches w) (users s) = Some u
        /\ user_delete w sel s
           = (Resolved (project_user s sel u), deleted s w)).
Proof.
  unfold user_delete.
  destruct (find (matches w) (users s)) as [u|]; [right; eauto|now left].
Qed.

Lemma user_create_cases drole dstatus uuid now d sel s :
  (exists e, user_create drole dstatus uuid now d sel s = (Rejected e, s))
  \/ (exists u,
        user_id u = uuid /\ user_createdAt u = now
        /\ user_create drole dstatus uuid now d sel s
           = (Resolved (project_user
                          {| users := users s ++ [u]; courses := courses s |}
                          sel u),
              {| users := users s ++ [u]; courses := courses s |})).
Proof.
  unfold user_create.
  destruct (_ || _); [left; eauto|].
  destruct (negb _); [left; eauto|].
  right. eexists. split; [|split]; cycle 2; reflexivity.
Qed.

(** ** The existence check of [update], [updateStatus] and [remove] *)

Section ExistenceCheck.
Variable bcrypt_hash : string -> nat -> string -> string.
Variables (s : Store) (id : string).

Lemma update_found salt dto u :
  find_user s id = Some u ->
  update bcrypt_hash salt id dto s
  = user_update (where_id id) (update_data bcrypt_hash salt dto)
                select_user s.
Proof.
  intros found. unfold update, await. now rewrite findUnique_id, found.
Qed.

Lemma updateStatus_found status u :
  find_user s id = Some u ->
  updateStatus id status s
  = user_update (where_id id) (status_data status) select_scalars s.
Proof.
  intros found. unfold updateStatus, await.
  now rewrite findUnique_id, found.
Qed.

Lemma remove_found u :
  find_user s id = Some u ->
  remove id s = user_delete (where_id id) select_scalars s.
Proof.
  intros found. unfold remove, await. now rewrite findUnique_id, found.
Qed.

Lemma findOne_found u :
  find_user s id = Some u ->
  findOne id s = (Resolved (project_user s select_user u), s).
Proof.
  intros found. unfold findOne, await. now rewrite findUnique_id, found.
Qed.

Lemma getUserCourses_found u :
  find_user s id = Some u ->
  getUserCourses id s
  = (Resolved (uv_assignedCourses (project_user s select_curriculum u)), s).
Proof.
  intros found. unfold getUserCourses, await.
  now rewrite findUnique_id, found.
Qed.

Hypothesis missing : find_user s id = None.

Lemma update_missing salt dto :
  update bcrypt_hash salt id dto s = (Rejected (not_found id), s).
Proof. unfold update, await. now rewrite findUnique_id, missing. Qed.

Lemma updateStatus_missing status :
  updateStatus id status s = (Rejected (not_found id), s).
Proof. unfold updateStatus, await. now rewrite findUnique_id, missing. Qed.

Lemma remove_missing : remove id s = (Rejected (not_found id), s).
Proof. unfold remove, await. now rewrite findUnique_id, missing. Qed.

Lemma findOne_missing : findOne id s = (Rejected (not_found id), s).
Proof. unfold findOne, await. now rewrite findUnique_id, missing. Qed.

Lemma getUserCourses_missing :
  getUserCourses id s = (Rejected (not_found id), s).
Proof.
  unfold getUserCourses, await. now rewrite findUnique_id, missing.
Qed.
End ExistenceCheck.

(** C5 — for an id that no user of the store has, findOne, update,
    updateStatus, getUserCourses and remove each reject with NotFound
    (message [User with ID <id> not found]) and hand the store back exactly
    as it was. *)
Theorem missing_id_is_not_found
    (bcrypt_hash : string -> nat -> string -> string)
    (s : Store) (id : string) :
  find_user s id = None ->
  let not_found :=
    NotFoundException ("User with ID " ++ id ++ " not found") in
  findOne id s = (Rejected not_found, s)
  /\ (forall salt dto,
        update bcrypt_hash salt id dto s = (Rejected not_found, s))
  /\ (forall status, updateStatus id status s = (Rejected not_found, s))
  /\ getUserCourses id s = (Rejected not_found, s)
  /\ remove id s = (Rejected not_found, s).
Proof.
  intros missing. simpl. repeat split; intros.
  - now apply findOne_missing.
  - now apply update_missing.
  - now apply updateStatus_missing.
  - now apply getUserCourses_missing.
  - now apply remove_missing.
Qed.

Lemma missing_id_is_not_found_witness :
  find_user Sample.store "u9" = None
  /\ findOne "u9" Sample.store
     = (Rejected (NotFoundException "User with ID u9 not found"),
        Sample.store)
  /\ remove "u9" Sample.store
     = (Rejected (NotFoundException "User with ID u9 not found"),
        Sample.store).
Proof.
  split; [reflexivity|].
  pose proof (missing_id_is_not_found Sample.hash Sample.store "u9"
                                      eq_refl) as H.
  simpl in H. split; [apply H | apply H].
Defined.

(** C9 — findByEmail(email), for an email that no user of the store has,
    resolves with null ([None]) and leaves the store as it was; the lookups
    by id, findOne and getUserCourses, reject with NotFound when no user has
    the id. *)
Theorem findByEmail_missing_is_null (s : Store) :
  (forall email,
     find_user_by_email s email = None ->
     findByEmail email s = (Resolved None, s))
  /\ (forall id,
        find_user s id = None ->
        findOne id s = (Rejected (not_found id), s)
        /\ getUserCourses id s = (Rejected (not_found id), s)).
Proof.
  split.
  - intros email missing. unfold findByEmail.
    now rewrite findUnique_email, missing.
  - intros id missing. split.
    + now apply findOne_missing.
    + now apply getUserCourses_missing.
Qed.

Lemma findByEmail_missing_is_null_witness :
  find_user_by_email Sample.store "zed@x.com" = None
  /\ findByEmail "zed@x.com" Sample.store = (Resolved None, Sample.store)
  /\ find_user Sample.store "u9" = None
  /\ findOne "u9" Sample.store = (Rejected (not_found "u9"), Sample.store).
Proof.
  destruct (findByEmail_missing_is_null Sample.store) as [by_email by_id].
  split; [reflexivity|].
  split; [apply by_email; reflexivity|].
  split; [reflexivity|].
  apply by_id. reflexivity.
Defined.

(** ** Projections and the password *)

Lemma project_user_no_password s sel u :
  sel_password sel = false -> uv_password (project_user s sel u) = None.
Proof. simpl. now intros ->. Qed.

Lemma user_update_no_password w d sel s :
  sel_password sel = false -> no_password (fst (user_update w d sel s)).
Proof.
  intros off.
  destruct (user_update_cases w d sel s) as [(e & ->)|(st & u & _ & _ & ->)];
    simpl; [exact I|]. now rewrite off.
Qed.

(** C3 — no result of create, findAll, findOne, update, updateStatus or
    remove carries a [password] key, whatever the arguments and the store
    (getUserCourses resolves with course projections, which have no such key
    at all); findByEmail is the exception: for a stored user it resolves
    with a projection whose [password] is the stored hash. *)
Theorem password_only_from_findByEmail
    (bcrypt_hash : string -> nat -> string -> string)
    (default_role : string) (default_status : UserStatus) (s : Store) :
  (forall uuid now salt dto,
     no_password (fst (create bcrypt_hash default_role default_status
                              uuid now salt dto s)))
  /\ (exists vs, findAll s = (Resolved vs, s)
                 /\ Forall (fun v => uv_password v = None) vs)
  /\ (forall id, no_password (fst (findOne id s)))
  /\ (forall salt id dto,
        no_password (fst (update bcrypt_hash salt id dto s)))
  /\ (forall id status, no_password (fst (updateStatus id status s)))
  /\ (forall id, no_password (fst (remove id s)))
  /\ (forall email u,
        find_user_by_email s email = Some u ->
        exists v, findByEmail email s = (Resolved (Some v), s)
                  /\ uv_password v = Some (user_password u)).
Proof.
  split; [|split; [|split; [|split; [|split; [|split]]]]].
  - intros uuid now salt dto. unfold create.
    destruct (user_create_cases default_role default_status uuid now
                (create_data bcrypt_hash salt dto) select_user s)
      as [(e & ->)|(u & _ & _ & ->)]; simpl; auto.
  - eexists. split; [reflexivity|].
    apply Forall_forall. intros v inv.
    apply in_map_iff in inv. now destruct inv as (u & <- & _).
  - intros id. destruct (find_user s id) as [u|] eqn:found.
    + now rewrite (findOne_found s id u).
    + now rewrite findOne_missing.
  - intros salt id dto. destruct (find_user s id) as [u|] eqn:found.
    + rewrite (update_found bcrypt_hash s id salt dto u found).
      now apply user_update_no_password.
    + now rewrite update_missing.
  - intros id status. destruct (find_user s id) as [u|] eqn:found.
    + rewrite (updateStatus_found s id status u found).
      now apply user_update_no_password.
    + now rewrite updateStatus_missing.
  - intros id. destruct (find_user s id) as [u|] eqn:found.
    + rewrite (remove_found s id u found).
      destruct (user_delete_cases (where_id id) select_scalars s)
        as [->|(v & _ & ->)]; simpl; auto.
    + now rewrite remove_missing.
  - intros email u found. eexists. unfold findByEmail.
    rewrite findUnique_email, found. split; reflexivity.
Qed.

Lemma password_only_from_findByEmail_witness :
  find_user_by_email Sample.store "ann@x.com" = Some Sample.ann
  /\ (exists v,
        findByEmail "ann@x.com" Sample.store = (Resolved (Some v), Sample.store)
        /\ uv_password v = Some "$2a$10$saltpw123")
  /\ no_password (fst (findOne "u1" Sample.store)).
Proof.
  pose proof (password_only_from_findByEmail Sample.hash "STUDENT" ACTIVE
                                             Sample.store) as H.
  destruct H as (_ & _ & one & _ & _ & _ & by_email).
  split; [reflexivity|].
  split; [apply (by_email "ann@x.com" Sample.ann); reflexivity|].
  apply one.
Defined.

(** ** Rows after a write *)

Lemma write_user_keeps_key d st id u :
  ud_id d = None ->
  matches (where_id id) (write_user d st u) = matches (where_id id) u.
Proof. simpl. now intros ->. Qed.

Lemma find_user_written s id d st :
  ud_id d = None ->
  find_user (written s (where_id id) d st) id
  = option_map (write_user d st) (find_user s id).
Proof.
  intros keep. unfold find_user, written. simpl.
  apply (find_update_first (matches (where_id id))).
  intros x. now apply write_user_keeps_key.
Qed.

Lemma write_user_same_identity d st u :
  ud_id d = None -> ud_createdAt d = None ->
  same_identity u (write_user d st u).
Proof. unfold same_identity. simpl. now intros -> ->. Qed.

Lemma same_identity_refl u : same_identity u u.
Proof. now split. Qed.

Lemma user_update_same_identity w d sel s :
  ud_id d = None -> ud_createdAt d = None ->
  Forall2 same_identity (users s) (users (snd (user_update w d sel s))).
Proof.
  intros keep_id keep_created.
  destruct (user_update_cases w d sel s) as [(e & ->)|(st & u & _ & _ & ->)];
    simpl.
  - induction (users s); constructor; auto using same_identity_refl.
  - apply update_first_Forall2.
    + apply same_identity_refl.
    + intros x. now apply write_user_same_identity.
Qed.

Lemma Forall2_In_r {A B} (R : A -> B -> Prop) l l' b :
  Forall2 R l l' -> In b l' -> exists a, In a l /\ R a b.
Proof.
  induction 1 as [|x y r r' Rxy _ IH]; simpl; [tauto|].
  intros [<-|inb].
  - exists x. auto.
  - destruct (IH inb) as (a & ina & Rab). exists a. auto.
Qed.

(** C10 — update(id, input) on an existing user with input.password equal
    to the empty string writes no password: the [data] object has no
    [password] key (nothing is hashed into it), and whatever the outcome of
    the call the user's stored hash is the one it was.  The same truthiness
    test decides the status: an empty input.status puts no [status] key in
    the [data] object. *)
Theorem update_empty_password_keeps_hash
    (bcrypt_hash : string -> nat -> string -> string)
    (salt : string) (s : Store) (id : string) (dto : UpdateUserDto)
    (u : User) :
  find_user s id = Some u ->
  upd_password dto = Some "" ->
  ud_password (update_data bcrypt_hash salt dto) = None
  /\ (exists u',
        find_user (snd (update bcrypt_hash salt id dto s)) id = Some u'
        /\ user_password u' = user_password u)
  /\ (upd_status dto = Some "" ->
      ud_status (update_data bcrypt_hash salt dto) = None).
Proof.
  intros found empty.
  assert (ud_password (update_data bcrypt_hash salt dto) = None) as no_key
    by (simpl; now rewrite empty).
  split; [exact no_key|]. split.
  - rewrite (update_found bcrypt_hash s id salt dto u found).
    destruct (user_update_cases (where_id id)
                (update_data bcrypt_hash salt dto) select_user s)
      as [(e & ->)|(st & u0 & _ & _ & ->)]; simpl.
    + exists u. auto.
    + rewrite find_user_written, found by reflexivity.
      eexists. split; [reflexivity|].
      cbn [write_user user_password]. now rewrite no_key.
  - intros empty_status. simpl. now rewrite empty_status.
Qed.

Lemma update_empty_password_keeps_hash_witness :
  find_user Sample.store "u1" = Some Sample.ann
  /\ upd_password Sample.empty_password = Some ""
  /\ ud_password (update_data Sample.hash "salt" Sample.empty_password) = None
  /\ exists u',
       find_user (snd (update Sample.hash "salt" "u1" Sample.empty_password
                              Sample.store)) "u1" = Some u'
       /\ user_password u' = "$2a$10$saltpw123".
Proof.
  split; [reflexivity|]. split; [reflexivity|].
  destruct (update_empty_password_keeps_hash Sample.hash "salt" Sample.store
              "u1" Sample.empty_password Sample.ann eq_refl eq_refl)
    as (no_key & kept & _).
  split; [exact no_key | exact kept].
Defined.

(** ** [updateStatus] *)

Lemma checked_status_member st :
  checked_status (Some (UserStatus_value st)) = Some (Some st).
Proof. now destruct st. Qed.

Lemma status_data_accepted s id st :
  accepts s (where_id id) (status_data (UserStatus_value st)) = true.
Proof.
  unfold accepts. cbn [status_data ud_status].
  now rewrite checked_status_member.
Qed.

(** C7 — updateStatus(id, s) on an existing user, for a member s of the
    status enumeration, resolves with a projection that has the status s and
    no [assignedCourses] key; a findOne(id) that follows resolves with the
    status s and with the name, email and role the user had before. *)
Theorem updateStatus_sets_status_only
    (s : Store) (id : string) (u : User) (st : UserStatus) :
  find_user s id = Some u ->
  exists v s',
    updateStatus id (UserStatus_value st) s = (Resolved v, s')
    /\ uv_assignedCourses v = None
    /\ uv_status v = Some st
    /\ exists v',
         findOne id s' = (Resolved v', s')
         /\ uv_status v' = Some st
         /\ uv_name v' = Some (user_name u)
         /\ uv_email v' = Some (user_email u)
         /\ uv_role v' = Some (user_role u).
Proof.
  intros found.
  destruct (user_update_accepted (where_id id)
              (status_data (UserStatus_value st)) select_scalars s u found
              (status_data_accepted s id st)) as (st' & checked & run).
  cbn [status_data ud_status] in checked.
  rewrite checked_status_member in checked.
  injection checked as <-.
  do 2 eexists. split.
  - rewrite (updateStatus_found s id _ u found). exact run.
  - split; [reflexivity|]. split; [reflexivity|].
    eexists. split.
    + apply findOne_found. rewrite find_user_written by reflexivity.
      rewrite found. reflexivity.
    + repeat split.
Qed.

Lemma updateStatus_sets_status_only_witness :
  find_user Sample.store "u2" = Some Sample.bob
  /\ exists v s',
       updateStatus "u2" "BANNED" Sample.store = (Resolved v, s')
       /\ uv_assignedCourses v = None
       /\ uv_status v = Some BANNED
       /\ exists v',
            findOne "u2" s' = (Resolved v', s')
            /\ uv_status v' = Some BANNED
            /\ uv_name v' = Some "Bob"
            /\ uv_email v' = Some "bob@x.com"
            /\ uv_role v' = Some "ADMIN".
Proof.
  split; [reflexivity|].
  apply (updateStatus_sets_status_only Sample.store "u2" Sample.bob BANNED).
  reflexivity.
Defined.

(** ** Identity of the rows *)

Lemma same_identity_map l l' :
  Forall2 same_identity l l' -> map identity l' = map identity l.
Proof.
  induction 1 as [|u u' r r' [same_id same_created] _ IH]; simpl;
    [reflexivity|].
  unfold identity at 1 3. now rewrite same_id, same_created, IH.
Qed.

Lemma update_same_identity bcrypt_hash salt id (a : UpdateArgument) s :
  arg_id a = None -> arg_createdAt a = None ->
  Forall2 same_identity (users s)
          (users (snd (update bcrypt_hash salt id a s))).
Proof.
  intros no_id no_created.
  destruct (find_user s id) as [u|] eqn:found.
  - rewrite (update_found bcrypt_hash s id salt a u found).
    now apply user_update_same_identity.
  - rewrite update_missing by assumption. simpl.
    induction (users s); constructor; auto using same_identity_refl.
Qed.

Lemma updateStatus_same_identity id status s :
  Forall2 same_identity (users s) (users (snd (updateStatus id status s))).
Proof.
  destruct (find_user s id) as [u|] eqn:found.
  - rewrite (updateStatus_found s id status u found).
    now apply user_update_same_identity.
  - rewrite updateStatus_missing by assumption. simpl.
    induction (users s); constructor; auto using same_identity_refl.
Qed.

(** C8, as stated, fails: update passes every own key of its argument but
    password, assignedCourseIds and status on to the store, so an argument
    that carries an [id] key rewrites the id of the user:
    update("u1", { id: "u7" }) leaves no user u1 and a user u7. *)
Lemma update_with_id_key_rewrites_id :
  (find_user Sample.store "u1" = Some Sample.ann
   /\ map identity (users Sample.store) = [("u1", 10); ("u2", 20)]
   /\ map identity
          (users (snd (update Sample.hash "salt" "u1" Sample.with_id_key
                              Sample.store)))
      = [("u7", 10); ("u2", 20)]
   /\ rejected (fst (update Sample.hash "salt" "u1" Sample.with_id_key
                            Sample.store)) = false
   /\ find_user (snd (update Sample.hash "salt" "u1" Sample.with_id_key
                             Sample.store)) "u1" = None)
  /\ ~ (forall bcrypt_hash salt id a s u',
          In u' (users (snd (update bcrypt_hash salt id a s))) ->
          exists u, In u (users s) /\ same_identity u u').
Proof.
  split; [repeat split|].
  intros claim.
  destruct (claim Sample.hash "salt" "u1" Sample.with_id_key Sample.store
                  {| user_id := "u7"; user_name := "Ann";
                     user_email := "ann@x.com";
                     user_password := "$2a$10$saltpw123";
                     user_role := "STUDENT"; user_status := ACTIVE;
                     user_createdAt := 10;
                     user_assignedCourses := ["c1"; "c2"] |})
    as (u & inu & same_id & _).
  - simpl. auto.
  - simpl in inu, same_id. destruct inu as [<-|[<-|[]]]; discriminate same_id.
Qed.

(** C8, amended — [id] and [createdAt] of a stored user do not change under
    updateStatus, whatever its input, nor under update when its argument
    carries the declared properties only: whatever the outcome, the user
    table holds the same [id] and [createdAt] pairs afterwards.  More
    generally, after a call of any method with such an argument, every row
    of the user table either has the [id] and [createdAt] of a row that was
    there before the call, or is the row a create has just inserted. *)
Theorem declared_calls_keep_id_and_createdAt
    (bcrypt_hash : string -> nat -> string -> string)
    (default_role : string) (default_status : UserStatus) (s : Store) :
  (forall salt id (dto : UpdateUserDto),
     Permutation (map identity (users s))
                 (map identity
                      (users (snd (update bcrypt_hash salt id dto s)))))
  /\ (forall id status,
        Permutation (map identity (users s))
                    (map identity (users (snd (updateStatus id status s)))))
  /\ (forall r u',
        declared_call r ->
        In u' (users (store_after bcrypt_hash default_role default_status
                                  r s)) ->
        (exists u, In u (users s) /\ same_identity u u')
        \/ (exists uuid now salt dto,
              r = call_create uuid now salt dto
              /\ user_id u' = uuid /\ user_createdAt u' = now)).
Proof.
  split.
  { intros salt id dto.
    rewrite (same_identity_map _ _
               (update_same_identity bcrypt_hash salt id dto s
                                     eq_refl eq_refl)).
    reflexivity. }
  split.
  { intros id status.
    rewrite (same_identity_map _ _ (updateStatus_same_identity id status s)).
    reflexivity. }
  assert (forall u', In u' (users s) ->
            exists u, In u (users s) /\ same_identity u u') as stay
    by (intros u' inu; exists u'; auto using same_identity_refl).
  intros r u' plain.
  destruct r as [uuid now salt dto| |id|email|salt id dto
                |id status|userId|id]; simpl.
  - unfold create.
    destruct (user_create_cases default_role default_status uuid now
                (create_data bcrypt_hash salt dto) select_user s)
      as [(e & ->)|(u & key & created & ->)]; simpl; [now left; apply stay|].
    intros inu. apply in_app_or in inu. destruct inu as [old|[<-|[]]].
    + left. now apply stay.
    + right. exists uuid, now, salt, dto. auto.
  - intros inu. left. now apply stay.
  - destruct (find_user s id) as [u|] eqn:found.
    + rewrite (findOne_found s id u found). intros inu. left. now apply stay.
    + rewrite findOne_missing by assumption. intros inu. left.
      now apply stay.
  - intros inu. left. now apply stay.
  - intros inu. left. destruct plain as [no_id no_created].
    apply (Forall2_In_r _ _ _ _
             (update_same_identity bcrypt_hash salt id dto s
                                   no_id no_created) inu).
  - intros inu. left.
    apply (Forall2_In_r _ _ _ _ (updateStatus_same_identity _ _ _) inu).
  - destruct (find_user s userId) as [u|] eqn:found.
    + rewrite (getUserCourses_found s userId u found). intros inu. left.
      now apply stay.
    + rewrite getUserCourses_missing by assumption. intros inu. left.
      now apply stay.
  - destruct (find_user s id) as [u|] eqn:found.
    + rewrite (remove_found s id u found).
      destruct (user_delete_cases (where_id id) select_scalars s)
        as [->|(v & _ & ->)]; simpl; intros inu; left.
      * now apply stay.
      * apply stay. eapply In_remove_first. exact inu.
    + rewrite remove_missing by assumption. intros inu. left.
      now apply stay.
Qed.

Lemma declared_calls_keep_id_and_createdAt_witness :
  Permutation (map identity (users Sample.store))
              (map identity
                   (users (snd (update Sample.hash "salt" "u1" Sample.rename
                                       Sample.store))))
  /\ declared_call (call_update "salt" "u1" Sample.rename)
  /\ In Sample.bob (users (store_after Sample.hash "STUDENT" ACTIVE
                                       (call_update "salt" "u1" Sample.rename)
                                       Sample.store))
  /\ ((exists u, In u (users Sample.store) /\ same_identity u Sample.bob)
      \/ (exists uuid now salt dto,
            call_update "salt" "u1" Sample.rename
            = call_create uuid now salt dto
            /\ user_id Sample.bob = uuid /\ user_createdAt Sample.bob = now)).
Proof.
  destruct (declared_calls_keep_id_and_createdAt Sample.hash "STUDENT" ACTIVE
              Sample.store) as (upd & _ & any).
  split; [apply upd|].
  assert (declared_call (call_update "salt" "u1" Sample.rename)) as plain
    by (split; reflexivity).
  assert (In Sample.bob
             (users (store_after Sample.hash "STUDENT" ACTIVE
                       (call_update "salt" "u1" Sample.rename) Sample.store)))
    as there by (simpl; auto).
  split; [exact plain|]. split; [exact there | exact (any _ _ plain there)].
Defined.

(** ** Course associations under [update] *)

Lemma select_user_courses s u :
  uv_assignedCourses (project_user s select_user u)
  = Some (map id_title_of (assigned_courses s u)).
Proof. reflexivity. Qed.

Lemma update_accepted bcrypt_hash salt s id (dto : UpdateUserDto) u :
  find_user s id = Some u ->
  accepts s (where_id id) (update_data bcrypt_hash salt dto) = true ->
  exists st,
    let d := update_data bcrypt_hash salt dto in
    let s' := written s (where_id id) d st in
    update bcrypt_hash salt id dto s
    = (Resolved (project_user s' select_user (write_user d st u)), s')
    /\ find_user s' id = Some (write_user d st u).
Proof.
  intros found ok.
  destruct (user_update_accepted (where_id id)
              (update_data bcrypt_hash salt dto) select_user s u found ok)
    as (st & _ & run).
  exists st. simpl. split.
  - now rewrite (update_found bcrypt_hash s id salt dto u found).
  - rewrite find_user_written by reflexivity. now rewrite found.
Qed.



(** ** [create] *)

Lemma length_append (a b : string) :
  String.length (a ++ b) = (String.length a + String.length b)%nat.
Proof. induction a as [|c a IH]; simpl; [reflexivity|]. now rewrite IH. Qed.

Lemma sample_hash_differs data rounds salt :
  Sample.hash data rounds salt <> data.
Proof.
  unfold Sample.hash. intros same.
  apply (f_equal String.length) in same.
  rewrite !length_append in same. simpl in same. lia.
Qed.

Lemma create_data_connect bcrypt_hash salt dto :
  or_else (cd_connect (create_data bcrypt_hash salt dto)) []
  = or_else (crt_assignedCourseIds dto) [].
Proof. simpl. now destruct (crt_assignedCourseIds dto) as [[|c r]|]. Qed.

Lemma user_create_admitted drole dstatus uuid now d sel s :
  admits s uuid d = true ->
  let u := {| user_id := uuid; user_name := cd_name d;
              user_email := cd_email d; user_password := cd_password d;
              user_role := or_else (cd_role d) drole;
              user_status := dstatus; user_createdAt := now;
              user_assignedCourses :=
                nodup string_dec (or_else (cd_connect d) []) |} in
  let s' := {| users := users s ++ [u]; courses := courses s |} in
  user_create drole dstatus uuid now d sel s
  = (Resolved (project_user s' sel u), s').
Proof.
  unfold admits, user_create. intros ok.
  apply andb_true_iff in ok. destruct ok as [ok exist].
  rewrite <- negb_orb in ok. apply negb_true_iff in ok.
  now rewrite ok, exist.
Qed.

(** C6 — create(input), when the store takes the new row (fresh id, free
    email, courses present), appends one row whose [password] column is
    [bcrypt.hash(input.password, 10)] and nothing else of the password, so
    that it differs from the plaintext for a hasher that never returns its
    input; it resolves with a projection made of exactly id, name, email,
    status, createdAt, role and the [{id, title}] of each associated course,
    without a [password] key.  The courses listed are rows of the course
    table, one for each id the user is associated with, each shown by its
    id and its title. *)
Theorem create_stores_hash_and_projects
    (bcrypt_hash : string -> nat -> string -> string)
    (default_role : string) (default_status : UserStatus)
    (uuid : string) (now : Z) (salt : string) (dto : CreateUserDto)
    (s : Store) :
  (forall data rounds salt', bcrypt_hash data rounds salt' <> data) ->
  admits s uuid (create_data bcrypt_hash salt dto) = true ->
  exists u v,
    create bcrypt_hash default_role default_status uuid now salt dto s
    = (Resolved v, {| users := users s ++ [u]; courses := courses s |})
    /\ user_password u = bcrypt_hash (crt_password dto) 10%nat salt
    /\ user_password u <> crt_password dto
    /\ (forall c, In c (user_assignedCourses u)
                  <-> In c (or_else (crt_assignedCourseIds dto) []))
    /\ v = {| uv_id := Some uuid;
              uv_name := Some (crt_name dto);
              uv_email := Some (crt_email dto);
              uv_password := None;
              uv_status := Some default_status;
              uv_createdAt := Some now;
              uv_role := Some (match crt_role dto with
                               | Some r => Role_value r
                               | None => default_role
                               end);
              uv_assignedCourses :=
                Some (map id_title_of
                          (join_courses s (user_assignedCourses u))) |}
    /\ exists cs,
         uv_assignedCourses v = Some (map id_title_of cs)
         /\ map course_id cs = user_assignedCourses u
         /\ Forall (fun c => In c (courses s)) cs
         /\ NoDup (user_assignedCourses u).
Proof.
  intros one_way ok.
  assert (courses_exist s
            (nodup string_dec
               (or_else (cd_connect (create_data bcrypt_hash salt dto)) []))
          = true) as exist.
  { unfold admits in ok. apply andb_true_iff in ok.
    apply courses_exist_nodup. apply ok. }
  do 2 eexists. split.
  - unfold create. now apply user_create_admitted.
  - cbn [user_password user_assignedCourses create_data cd_password].
    split; [reflexivity|]. split; [apply one_way|]. split; [|split].
    + intros c. rewrite nodup_In.
      now rewrite (create_data_connect bcrypt_hash salt dto).
    + unfold project_user. simpl. now destruct (crt_role dto).
    + eexists. split; [reflexivity|].
      split; [now apply join_courses_ids|].
      split; [|apply NoDup_nodup].
      apply Forall_forall. intros c inc.
      now apply join_courses_in_table in inc.
Qed.

Lemma create_stores_hash_and_projects_witness :
  (forall data rounds salt', Sample.hash data rounds salt' <> data)
  /\ admits Sample.store "u3" (create_data Sample.hash "salt" Sample.new_user)
     = true
  /\ exists u v,
       create Sample.hash "STUDENT" ACTIVE "u3" 30 "salt" Sample.new_user
              Sample.store
       = (Resolved v, {| users := users Sample.store ++ [u];
                         courses := courses Sample.store |})
       /\ user_password u = "$2a$10$saltpw123"
       /\ user_password u <> "pw123"
       /\ (forall c, In c (user_assignedCourses u) <-> In c ["c1"])
       /\ v = {| uv_id := Some "u3";
                 uv_name := Some "Cid";
                 uv_email := Some "cid@x.com";
                 uv_password := None;
                 uv_status := Some ACTIVE;
                 uv_createdAt := Some 30;
                 uv_role := Some "STUDENT";
                 uv_assignedCourses :=
                   Some (map id_title_of
                             (join_courses Sample.store
                                           (user_assignedCourses u))) |}
       /\ exists cs,
            uv_assignedCourses v = Some (map id_title_of cs)
            /\ map course_id cs = user_assignedCourses u
            /\ Forall (fun c => In c (courses Sample.store)) cs
            /\ NoDup (user_assignedCourses u).
Proof.
  split; [exact sample_hash_differs|]. split; [reflexivity|].
  apply (create_stores_hash_and_projects Sample.hash "STUDENT" ACTIVE "u3" 30
           "salt" Sample.new_user Sample.store sample_hash_differs).
  reflexivity.
Defined.

(** ** The status and the enumeration *)

Lemma truthy_nonempty str : str <> "" -> truthy str = true.
Proof. destruct str; [contradiction|reflexivity]. Qed.

Lemma checked_status_outside str :
  UserStatus_of_string str = None -> checked_status (Some str) = None.
Proof. simpl. now intros ->. Qed.

Lemma checked_status_absent st : checked_status None = Some st -> st = None.
Proof. simpl. now intros [= <-]. Qed.

(** C4, as stated, fails: update(id, input) with input.status equal to the
    empty string, which is outside the enumeration, is not rejected. *)
Lemma update_empty_status_is_not_rejected :
  (find_user Sample.store "u1" = Some Sample.ann
   /\ upd_status Sample.empty_status = Some ""
   /\ UserStatus_of_string "" = None
   /\ rejected (fst (update Sample.hash "salt" "u1" Sample.empty_status
                            Sample.store)) = false
   /\ snd (update Sample.hash "salt" "u1" Sample.empty_status Sample.store)
      = Sample.store)
  /\ ~ (forall bcrypt_hash salt s id dto status u,
          find_user s id = Some u ->
          upd_status dto = Some status ->
          UserStatus_of_string status = None ->
          rejected (fst (update bcrypt_hash salt id dto s)) = true).
Proof.
  split; [repeat split|].
  intros claim.
  specialize (claim Sample.hash "salt" Sample.store "u1" Sample.empty_status
                    "" Sample.ann eq_refl eq_refl eq_refl).
  discriminate claim.
Qed.

(** C4, amended — on an existing user, the status handed over by
    updateStatus, and the non-empty status handed over by update, is checked
    by the store client against the enumeration: a value outside it rejects
    the call with a validation failure and leaves the store as it was, and a
    member replaces the stored status.  update with an empty status treats
    the status as absent: no [status] key is written and the stored status
    is the one it was. *)
Theorem status_is_checked_by_the_store
    (bcrypt_hash : string -> nat -> string -> string)
    (salt : string) (s : Store) (id : string) (u : User) :
  find_user s id = Some u ->
  (forall status,
     UserStatus_of_string status = None ->
     updateStatus id status s = (Rejected ValidationFailure, s))
  /\ (forall dto status,
        upd_status dto = Some status ->
        status <> "" ->
        UserStatus_of_string status = None ->
        update bcrypt_hash salt id dto s = (Rejected ValidationFailure, s))
  /\ (forall dto member,
        upd_status dto = Some (UserStatus_value member) ->
        accepts s (where_id id) (update_data bcrypt_hash salt dto) = true ->
        exists v s' u',
          update bcrypt_hash salt id dto s = (Resolved v, s')
          /\ find_user s' id = Some u'
          /\ user_status u' = member
          /\ uv_status v = Some member)
  /\ (forall dto,
        upd_status dto = Some "" ->
        ud_status (update_data bcrypt_hash salt dto) = None
        /\ exists u',
             find_user (snd (update bcrypt_hash salt id dto s)) id = Some u'
             /\ user_status u' = user_status u).
Proof.
  intros found. split; [|split; [|split]].
  - intros status outside.
    rewrite (updateStatus_found s id status u found).
    apply user_update_invalid_status. now apply checked_status_outside.
  - intros dto status given nonempty outside.
    rewrite (update_found bcrypt_hash s id salt dto u found).
    apply user_update_invalid_status.
    cbn [update_data arg_dto declared ud_status]. rewrite given. unfold when_truthy.
    rewrite (truthy_nonempty status nonempty).
    now apply checked_status_outside.
  - intros dto member given ok.
    destruct (user_update_accepted (where_id id)
                (update_data bcrypt_hash salt dto) select_user s u found ok)
      as (st & checked & run).
    assert (st = Some member) as ->.
    { cbn [update_data arg_dto declared ud_status] in checked. rewrite given in checked.
      unfold when_truthy in checked.
      rewrite truthy_nonempty in checked by now destruct member.
      rewrite checked_status_member in checked. now injection checked. }
    do 3 eexists. split.
    + rewrite (update_found bcrypt_hash s id salt dto u found). exact run.
    + split.
      * rewrite find_user_written by reflexivity. now rewrite found.
      * split; reflexivity.
  - intros dto empty.
    assert (ud_status (update_data bcrypt_hash salt dto) = None) as no_key
      by (simpl; now rewrite empty).
    split; [exact no_key|].
    rewrite (update_found bcrypt_hash s id salt dto u found).
    destruct (user_update_cases (where_id id)
                (update_data bcrypt_hash salt dto) select_user s)
      as [(e & ->)|(st & u0 & checked & _ & ->)]; simpl.
    + exists u. auto.
    + rewrite find_user_written, found by reflexivity.
      eexists. split; [reflexivity|].
      rewrite no_key in checked. apply checked_status_absent in checked.
      now subst st.
Qed.

Lemma status_is_checked_by_the_store_witness :
  find_user Sample.store "u1" = Some Sample.ann
  /\ UserStatus_of_string "SUSPENDED" = None
  /\ updateStatus "u1" "SUSPENDED" Sample.store
     = (Rejected ValidationFailure, Sample.store)
  /\ upd_status Sample.unknown_status = Some "SUSPENDED"
  /\ update Sample.hash "salt" "u1" Sample.unknown_status Sample.store
     = (Rejected ValidationFailure, Sample.store)
  /\ updateStatus "u1" "" Sample.store
     = (Rejected ValidationFailure, Sample.store).
Proof.
  destruct (status_is_checked_by_the_store Sample.hash "salt" Sample.store
              "u1" Sample.ann eq_refl) as (narrow & wide & _ & _).
  split; [reflexivity|]. split; [reflexivity|].
  split; [apply narrow; reflexivity|]. split; [reflexivity|].
  split; [|apply narrow; reflexivity].
  apply (wide Sample.unknown_status "SUSPENDED");
    [reflexivity | discriminate | reflexivity].
Defined.

(** ** Worked calls on the sample store *)

Example orderBy_desc : orderBy (fun x => x) desc [3; 1; 2; 3] = [3; 3; 2; 1].
Proof. reflexivity. Qed.

Example getUserCourses_of_ann :
  fst (getUserCourses "u1" Sample.store)
  = Resolved (Some
      [ {| cv_id := Some "c2"; cv_title := Some "Databases";
           cv_description := Some "Relations"; cv_modules := Some [] |};
        {| cv_id := Some "c1"; cv_title := Some "Programming";
           cv_description := Some "Basics";
           cv_modules := Some
             [ {| mv_id := Some "m1"; mv_title := Some "Intro";
                  mv_order := Some 1;
                  mv_lessons := Some
                    [ {| lv_id := Some "l1"; lv_title := Some "Values";
                         lv_duration := Some 20; lv_order := Some 1 |};
                      {| lv_id := Some "l2"; lv_title := Some "Loops";
                         lv_duration := Some 30; lv_order := Some 2 |} ] |};
               {| mv_id := Some "m2"; mv_title := Some "Practice";
                  mv_order := Some 2; mv_lessons := Some [] |} ] |} ]).
Proof. reflexivity. Qed.

Example update_sets_courses_of_ann :
  fst (update Sample.hash "salt" "u1" Sample.only_course_c2 Sample.store)
  = Resolved
      {| uv_id := Some "u1"; uv_name := Some "Ann B.";
         uv_email := Some "ann@x.com"; uv_password := None;
         uv_status := Some ACTIVE; uv_createdAt := Some 10;
         uv_role := Some "STUDENT";
         uv_assignedCourses := Some [id_title_of Sample.c2] |}.
Proof. reflexivity. Qed.

Example update_clears_courses_of_ann :
  option_map user_assignedCourses
    (find_user (snd (update Sample.hash "salt" "u1" clear_courses
                            Sample.store)) "u1")
  = Some [].
Proof. reflexivity. Qed.

Example update_empty_keeps_courses_of_ann :
  update Sample.hash "salt" "u1" empty_update Sample.store
  = (Resolved (project_user Sample.store select_user Sample.ann),
     Sample.store).
Proof. reflexivity. Qed.

Example remove_bob :
  remove "u2" Sample.store
  = (Resolved (project_user Sample.store select_scalars Sample.bob),
     {| users := [Sample.ann]; courses := courses Sample.store |}).
Proof. reflexivity. Qed.

Example update_taken_email :
  update Sample.hash "salt" "u1"
         {| upd_name := None; upd_email := Some "bob@x.com";
            upd_password := None; upd_role := None; upd_status := None;
            upd_assignedCourseIds := None |} Sample.store
  = (Rejected UniquenessViolation, Sample.store).
Proof. reflexivity. Qed.

Example update_unknown_course :
  update Sample.hash "salt" "u1"
         {| upd_name := None; upd_email := None; upd_password := None;
            upd_role := None; upd_status := None;
            upd_assignedCourseIds := Some ["c7"] |} Sample.store
  = (Rejected ReferentialIntegrityViolation, Sample.store).
Proof. reflexivity. Qed.

Example create_then_getUserCourses :
  let '(_, s') := create Sample.hash "STUDENT" ACTIVE "u3" 30 "salt"
                         Sample.new_user Sample.store in
  option_map (map cv_id) (match fst (getUserCourses "u3" s') with
                          | Resolved cs => cs
                          | Rejected _ => None
                          end)
  = Some [Some "c1"].
Proof. reflexivity. Qed.

(* ================================================================== *)
(** * Further properties of the service *)

(** ** More on the first row that matches *)

Section FirstMatchMore.
Context {A : Type}.
Implicit Types (p q : A -> bool) (f : A -> A) (l : list A).


Lemma find_remove_first_other p q l :
  (forall x, p x = true -> q x = false) ->
  find q (remove_first p l) = find q l.
Proof.
  intros apart. induction l as [|x r IH]; simpl; [reflexivity|].
  destruct (p x) eqn:px; simpl.
  - now rewrite (apart x px).
  - now rewrite IH.
Qed.

Lemma find_none_existsb p l : existsb p l = false -> find p l = None.
Proof.
  induction l as [|x r IH]; simpl; [reflexivity|].
  destruct (p x); [discriminate|exact IH].
Qed.

Lemma find_app_new p l x :
  find p l = None -> p x = true -> find p (l ++ [x]) = Some x.
Proof.
  induction l as [|y r IH]; simpl; intros none px.
  - now rewrite px.
  - destruct (p y); [discriminate|auto].
Qed.

Lemma find_app_old p l x y :
  find p l = Some y -> find p (l ++ [x]) = Some y.
Proof.
  induction l as [|z r IH]; simpl; [discriminate|].
  destruct (p z); auto.
Qed.

Lemma Forall_update_first (P : A -> Prop) p f l :
  (forall x, P x -> P (f x)) -> Forall P l -> Forall P (update_first p f l).
Proof.
  intros step. induction 1 as [|x r Px all IH]; simpl; [constructor|].
  destruct (p x); constructor; auto.
Qed.

Lemma Forall_remove_first (P : A -> Prop) p l :
  Forall P l -> Forall P (remove_first p l).
Proof.
  induction 1 as [|x r Px all IH]; simpl; [constructor|].
  destruct (p x); [exact all|constructor; auto].
Qed.


Lemma length_remove_first p l x :
  find p l = Some x -> S (length (remove_first p l)) = length l.
Proof.
  induction l as [|y r IH]; simpl; [discriminate|].
  destruct (p y); [reflexivity|]. intros found. simpl. now rewrite IH.
Qed.
End FirstMatchMore.

(** ** Unique columns *)

Section UniqueColumn.
Variable col : User -> string.
Implicit Types (p : User -> bool) (f : User -> User) (l : list User).

Lemma existsb_col_false l a :
  existsb (fun u => String.eqb (col u) a) l = false <-> ~ In a (map col l).
Proof.
  induction l as [|x r IH]; simpl; [tauto|].
  rewrite orb_false_iff, IH, String.eqb_neq. tauto.
Qed.

Lemma find_col_none l a :
  ~ In a (map col l) -> find (fun u => String.eqb (col u) a) l = None.
Proof.
  intros out. apply find_none_existsb. now apply existsb_col_false.
Qed.

Lemma In_col_remove_first p l a :
  In a (map col (remove_first p l)) -> In a (map col l).
Proof.
  rewrite !in_map_iff. intros (x & <- & inx).
  exists x. split; [reflexivity|]. eapply In_remove_first. exact inx.
Qed.

Lemma NoDup_col_remove_first p l :
  NoDup (map col l) -> NoDup (map col (remove_first p l)).
Proof.
  induction l as [|x r IH]; simpl; [auto|].
  intros nd. inversion nd as [|? ? fresh nd']; subst.
  destruct (p x); [exact nd'|]. simpl. constructor; [|auto].
  intros inx. apply fresh. eapply In_col_remove_first. exact inx.
Qed.

Lemma find_col_remove_first l a :
  NoDup (map col l) ->
  find (fun u => String.eqb (col u) a)
       (remove_first (fun u => String.eqb (col u) a) l) = None.
Proof.
  induction l as [|x r IH]; simpl; [reflexivity|].
  intros nd. inversion nd as [|? ? fresh nd']; subst.
  destruct (String.eqb (col x) a) eqn:same; simpl.
  - apply String.eqb_eq in same. subst a. now apply find_col_none.
  - rewrite same. auto.
Qed.

Lemma map_col_update_first_keep p f l :
  (forall x, col (f x) = col x) ->
  map col (update_first p f l) = map col l.
Proof.
  intros keep. induction l as [|x r IH]; simpl; [reflexivity|].
  destruct (p x); simpl; [now rewrite keep|now rewrite IH].
Qed.

Lemma In_col_update_first p f l a e :
  (forall x, col (f x) = e) ->
  In a (map col (update_first p f l)) -> a = e \/ In a (map col l).
Proof.
  intros sets. induction l as [|x r IH]; simpl; [tauto|].
  destruct (p x); simpl.
  - rewrite sets. intuition.
  - intuition.
Qed.

Lemma NoDup_col_update_first_set p f l e :
  (forall x, col (f x) = e) ->
  existsb (fun u => String.eqb (col u) e) (remove_first p l) = false ->
  NoDup (map col l) -> NoDup (map col (update_first p f l)).
Proof.
  intros sets. induction l as [|x r IH]; simpl; [auto|].
  intros free nd. inversion nd as [|? ? fresh nd']; subst.
  destruct (p x); simpl.
  - rewrite sets. constructor; [|exact nd'].
    now apply existsb_col_false.
  - simpl in free. apply orb_false_iff in free. destruct free as [ne free].
    apply String.eqb_neq in ne.
    constructor; [|auto].
    intros inx. apply (In_col_update_first p f r _ e sets) in inx.
    destruct inx as [same|inx]; [now apply ne|now apply fresh].
Qed.

Lemma NoDup_col_app_new l x :
  ~ In (col x) (map col l) ->
  NoDup (map col l) -> NoDup (map col (l ++ [x])).
Proof.
  intros fresh nd. rewrite map_app. simpl.
  apply NoDup_app; [exact nd|repeat constructor; simpl; tauto|].
  intros a ina [<-|[]]. contradiction.
Qed.
End UniqueColumn.

(** ** Outcomes of the writes *)

Ltac refused := left; eexists; reflexivity.

Lemma user_update_outcome w d sel s :
  (exists e, user_update w d sel s = (Rejected e, s))
  \/ (exists st u,
        checked_status (ud_status d) = Some st
        /\ find (matches w) (users s) = Some u
        /\ accepts s w d = true
        /\ user_update w d sel s
           = (Resolved (project_user (written s w d st) sel
                                     (write_user d st u)),
              written s w d st)).
Proof.
  unfold user_update, accepts.
  destruct (checked_status (ud_status d)) as [st|]; [|refused].
  destruct (find (matches w) (users s)) as [u|]; [|refused].
  destruct (taken user_id _ _ _); [refused|].
  destruct (taken user_email _ _ _); [refused|].
  destruct (courses_exist _ _); [|refused].
  right. exists st, u. repeat split.
Qed.

Lemma user_create_outcome drole dstatus uuid now d sel s :
  (exists e, user_create drole dstatus uuid now d sel s = (Rejected e, s))
  \/ (admits s uuid d = true
      /\ user_create drole dstatus uuid now d sel s
         = (Resolved (project_user
                        (inserted s (new_row drole dstatus uuid now d)) sel
                        (new_row drole dstatus uuid now d)),
            inserted s (new_row drole dstatus uuid now d))).
Proof.
  unfold user_create, admits.
  destruct (taken user_id _ _ _); [refused|].
  destruct (taken user_email _ _ _); [refused|].
  destruct (courses_exist _ _); [|refused].
  right. simpl. split; reflexivity.
Qed.

(** The store a call leaves is the store it found, or that store with one
    row inserted, one row written in place, or one row deleted. *)
Lemma store_after_shape bcrypt_hash drole dstatus r s :
  store_after bcrypt_hash drole dstatus r s = s
  \/ (exists uuid now d,
        admits s uuid d = true
        /\ store_after bcrypt_hash drole dstatus r s
           = inserted s (new_row drole dstatus uuid now d))
  \/ (exists id d st u,
        find_user s id = Some u
        /\ accepts s (where_id id) d = true
        /\ checked_status (ud_status d) = Some st
        /\ store_after bcrypt_hash drole dstatus r s
           = written s (where_id id) d st)
  \/ (exists id u,
        find_user s id = Some u
        /\ store_after bcrypt_hash drole dstatus r s
           = deleted s (where_id id)).
Proof.
  destruct r as [uuid now salt dto| |id|email|salt id dto
                |id status|userId|id]; simpl.
  - unfold create.
    destruct (user_create_outcome drole dstatus uuid now
                (create_data bcrypt_hash salt dto) select_user s)
      as [(e & ->)|(ok & ->)]; simpl; [now left|].
    right. left. eauto.
  - now left.
  - destruct (find_user s id) as [u|] eqn:found.
    + rewrite (findOne_found s id u found). now left.
    + rewrite findOne_missing by assumption. now left.
  - now left.
  - destruct (find_user s id) as [u|] eqn:found.
    + rewrite (update_found bcrypt_hash s id salt dto u found).
      destruct (user_update_outcome (where_id id)
                  (update_data bcrypt_hash salt dto) select_user s)
        as [(e & ->)|(st & u0 & checked & _ & ok & ->)]; simpl; [now left|].
      right. right. left. exists id, (update_data bcrypt_hash salt dto), st, u.
      repeat split; assumption.
    + rewrite update_missing by assumption. now left.
  - destruct (find_user s id) as [u|] eqn:found.
    + rewrite (updateStatus_found s id status u found).
      destruct (user_update_outcome (where_id id) (status_data status)
                  select_scalars s)
        as [(e & ->)|(st & u0 & checked & _ & ok & ->)]; simpl; [now left|].
      right. right. left. exists id, (status_data status), st, u.
      repeat split; assumption.
    + rewrite updateStatus_missing by assumption. now left.
  - destruct (find_user s userId) as [u|] eqn:found.
    + rewrite (getUserCourses_found s userId u found). now left.
    + rewrite getUserCourses_missing by assumption. now left.
  - destruct (find_user s id) as [u|] eqn:found.
    + rewrite (remove_found s id u found).
      destruct (user_delete_cases (where_id id) select_scalars s)
        as [->|(v & _ & ->)]; simpl; [now left|].
      right. right. right. eauto.
    + rewrite remove_missing by assumption. now left.
Qed.

(** ** What the store checks before a write *)

Lemma admits_fresh s uuid d :
  admits s uuid d = true ->
  ~ In uuid (map user_id (users s))
  /\ ~ In (cd_email d) (map user_email (users s))
  /\ courses_exist s (or_else (cd_connect d) []) = true.
Proof.
  unfold admits. intros ok.
  apply andb_true_iff in ok. destruct ok as [ok exist].
  apply andb_true_iff in ok. destruct ok as [free_id free_email].
  apply negb_true_iff in free_id, free_email. simpl in free_id, free_email.
  repeat split; [now apply existsb_col_false ..|exact exist].
Qed.

Lemma accepts_free s w d :
  accepts s w d = true ->
  taken user_email String.eqb (ud_email d)
        (remove_first (matches w) (users s)) = false
  /\ courses_exist s (or_else (ud_set d) []) = true.
Proof.
  unfold accepts. destruct (checked_status (ud_status d)); [|discriminate].
  intros ok.
  apply andb_true_iff in ok. destruct ok as [ok exist].
  apply andb_true_iff in ok. destruct ok as [_ free_email].
  apply negb_true_iff in free_email. auto.
Qed.

Lemma accepts_free_id s w d :
  accepts s w d = true ->
  taken user_id String.eqb (ud_id d)
        (remove_first (matches w) (users s)) = false.
Proof.
  unfold accepts. destruct (checked_status (ud_status d)); [|discriminate].
  intros ok.
  apply andb_true_iff in ok. destruct ok as [ok _].
  apply andb_true_iff in ok. destruct ok as [free_id _].
  now apply negb_true_iff in free_id.
Qed.

Lemma courses_exist_same_table s s' ids :
  courses s' = courses s -> courses_exist s' ids = courses_exist s ids.
Proof. unfold courses_exist, find_course. now intros ->. Qed.

Lemma write_user_courses_exist s d st u :
  courses_exist s (or_else (ud_set d) []) = true ->
  courses_exist s (user_assignedCourses u) = true ->
  courses_exist s (user_assignedCourses (write_user d st u)) = true.
Proof.
  simpl. destruct (ud_set d) as [ids|]; simpl; [|auto].
  intros exist _. now apply courses_exist_nodup.
Qed.

(** ** Invariants of the store *)

Lemma store_after_unique_keys bcrypt_hash default_role default_status r s :
  unique_keys s ->
  unique_keys (store_after bcrypt_hash default_role default_status r s).
Proof.
  intros [ids emails].
  destruct (store_after_shape bcrypt_hash default_role default_status r s)
    as [->|[(uuid & now & d & ok & ->)
           |[(id & d & st & u & _ & ok & _ & ->)
            |(id & u & _ & ->)]]].
  - now split.
  - apply admits_fresh in ok. destruct ok as (fresh_id & fresh_email & _).
    split; simpl; now apply NoDup_col_app_new.
  - pose proof (accepts_free_id _ _ _ ok) as free_id.
    apply accepts_free in ok. destruct ok as [free _].
    split; simpl.
    + destruct (ud_id d) as [k|] eqn:key.
      * apply (NoDup_col_update_first_set user_id _ _ _ k);
          [|exact free_id|exact ids].
        intros x. simpl. now rewrite key.
      * rewrite map_col_update_first_keep; [exact ids|].
        intros x. simpl. now rewrite key.
    + destruct (ud_email d) as [e|] eqn:email.
      * apply (NoDup_col_update_first_set user_email _ _ _ e);
          [|exact free|exact emails].
        intros x. simpl. now rewrite email.
      * rewrite map_col_update_first_keep; [exact emails|].
        intros x. simpl. now rewrite email.
  - split; simpl; now apply NoDup_col_remove_first.
Qed.

(** X1 — no call of the service makes two users share an id or an email:
    from a store whose ids and emails are pairwise distinct, the store left
    by any sequence of calls of any methods, resolved or rejected, is such
    a store again. *)
Theorem calls_keep_unique_keys
    (bcrypt_hash : string -> nat -> string -> string)
    (default_role : string) (default_status : UserStatus)
    (rs : list Request) (s : Store) :
  unique_keys s ->
  unique_keys (store_after_all bcrypt_hash default_role default_status rs s).
Proof.
  unfold store_after_all. revert s.
  induction rs as [|r rs IH]; intros s fine; simpl; [exact fine|].
  apply IH. now apply store_after_unique_keys.
Qed.

Lemma calls_keep_unique_keys_witness :
  unique_keys Sample.store
  /\ unique_keys (store_after_all Sample.hash "STUDENT" ACTIVE
                    [call_create "u3" 30 "salt" Sample.new_user;
                     call_update "salt" "u1" Sample.rename;
                     call_remove "u2"]
                    Sample.store).
Proof.
  assert (unique_keys Sample.store) as fine.
  { split; simpl; repeat constructor; simpl; intuition discriminate. }
  split; [exact fine|].
  apply (calls_keep_unique_keys Sample.hash "STUDENT" ACTIVE _ Sample.store
           fine).
Defined.

Lemma store_after_no_dangling bcrypt_hash default_role default_status r s :
  no_dangling s ->
  no_dangling (store_after bcrypt_hash default_role default_status r s).
Proof.
  unfold no_dangling. intros valid.
  destruct (store_after_shape bcrypt_hash default_role default_status r s)
    as [->|[(uuid & now & d & ok & ->)
           |[(id & d & st & u & _ & ok & _ & ->)
            |(id & u & _ & ->)]]].
  - exact valid.
  - apply admits_fresh in ok. destruct ok as (_ & _ & exist).
    simpl. apply Forall_app. split.
    + eapply Forall_impl; [|exact valid]. intros x Px.
      now rewrite (courses_exist_same_table s).
    + constructor; [|constructor].
      rewrite (courses_exist_same_table s) by reflexivity.
      now apply courses_exist_nodup.
  - apply accepts_free in ok. destruct ok as [_ exist].
    simpl. apply Forall_update_first.
    + intros x Px. rewrite (courses_exist_same_table s) in * by reflexivity.
      now apply write_user_courses_exist.
    + eapply Forall_impl; [|exact valid]. intros x Px.
      now rewrite (courses_exist_same_table s).
  - simpl. apply Forall_remove_first.
    eapply Forall_impl; [|exact valid]. intros x Px.
    now rewrite (courses_exist_same_table s).
Qed.

(** X2 — no call of the service leaves a user associated with a course that
    is not in the course table: from a store without such an association,
    the store left by any sequence of calls of any methods has none
    either. *)
Theorem calls_keep_associations_valid
    (bcrypt_hash : string -> nat -> string -> string)
    (default_role : string) (default_status : UserStatus)
    (rs : list Request) (s : Store) :
  no_dangling s ->
  no_dangling (store_after_all bcrypt_hash default_role default_status rs s).
Proof.
  unfold store_after_all. revert s.
  induction rs as [|r rs IH]; intros s fine; simpl; [exact fine|].
  apply IH. now apply store_after_no_dangling.
Qed.

Lemma calls_keep_associations_valid_witness :
  no_dangling Sample.store
  /\ no_dangling (store_after_all Sample.hash "STUDENT" ACTIVE
                    [call_update "salt" "u2" Sample.only_course_c2;
                     call_create "u3" 30 "salt" Sample.new_user]
                    Sample.store).
Proof.
  assert (no_dangling Sample.store) as fine
    by (repeat constructor).
  split; [exact fine|].
  apply (calls_keep_associations_valid Sample.hash "STUDENT" ACTIVE _
           Sample.store fine).
Defined.


(** ** Rejected calls and reads *)

Lemma user_delete_resolves w sel s u :
  find (matches w) (users s) = Some u ->
  user_delete w sel s = (Resolved (project_user s sel u), deleted s w).
Proof. unfold user_delete. now intros ->. Qed.

(** X4 — a call that is rejected, for whatever reason (user not found,
    status outside the enumeration, email taken, course unknown), leaves the
    store exactly as it was; and the four reads, findAll, findOne,
    findByEmail and getUserCourses, leave it as it was whatever they
    return. *)
Theorem rejected_calls_and_reads_change_nothing
    (bcrypt_hash : string -> nat -> string -> string)
    (default_role : string) (default_status : UserStatus) (s : Store) :
  (forall r,
     call_rejected bcrypt_hash default_role default_status r s = true ->
     store_after bcrypt_hash default_role default_status r s = s)
  /\ snd (findAll s) = s
  /\ (forall id, snd (findOne id s) = s)
  /\ (forall email, snd (findByEmail email s) = s)
  /\ (forall userId, snd (getUserCourses userId s) = s).
Proof.
  assert (forall id, snd (findOne id s) = s) as one.
  { intros id. destruct (find_user s id) as [u|] eqn:found.
    - now rewrite (findOne_found s id u found).
    - now rewrite findOne_missing. }
  assert (forall id, snd (getUserCourses id s) = s) as curriculum.
  { intros id. destruct (find_user s id) as [u|] eqn:found.
    - now rewrite (getUserCourses_found s id u found).
    - now rewrite getUserCourses_missing. }
  split; [|repeat split; auto].
  intros r. destruct r as [uuid now salt dto| |id|email|salt id dto
                          |id status|userId|id]; simpl; auto.
  - unfold create.
    destruct (user_create_outcome default_role default_status uuid now
                (create_data bcrypt_hash salt dto) select_user s)
      as [(e & ->)|(_ & ->)]; simpl; [reflexivity|discriminate].
  - destruct (find_user s id) as [u|] eqn:found.
    + rewrite (update_found bcrypt_hash s id salt dto u found).
      destruct (user_update_outcome (where_id id)
                  (update_data bcrypt_hash salt dto) select_user s)
        as [(e & ->)|(st & u0 & _ & _ & _ & ->)]; simpl;
        [reflexivity|discriminate].
    + now rewrite update_missing.
  - destruct (find_user s id) as [u|] eqn:found.
    + rewrite (updateStatus_found s id status u found).
      destruct (user_update_outcome (where_id id) (status_data status)
                  select_scalars s)
        as [(e & ->)|(st & u0 & _ & _ & _ & ->)]; simpl;
        [reflexivity|discriminate].
    + now rewrite updateStatus_missing.
  - destruct (find_user s id) as [u|] eqn:found.
    + rewrite (remove_found s id u found).
      rewrite (user_delete_resolves (where_id id) select_scalars s u found).
      simpl. discriminate.
    + now rewrite remove_missing.
Qed.

Lemma rejected_calls_and_reads_change_nothing_witness :
  call_rejected Sample.hash "STUDENT" ACTIVE
    (call_update "salt" "u1" (only_status "SUSPENDED")) Sample.store = true
  /\ store_after Sample.hash "STUDENT" ACTIVE
       (call_update "salt" "u1" (only_status "SUSPENDED")) Sample.store
     = Sample.store.
Proof.
  split; [reflexivity|].
  apply (proj1 (rejected_calls_and_reads_change_nothing Sample.hash "STUDENT"
                  ACTIVE Sample.store)).
  reflexivity.
Defined.

(** ** Round trips through [create] *)

Lemma find_user_inserted_new s u :
  ~ In (user_id u) (map user_id (users s)) ->
  find_user (inserted s u) (user_id u) = Some u.
Proof.
  intros fresh. unfold find_user, inserted. simpl.
  apply find_app_new.
  - now apply (find_col_none user_id).
  - apply String.eqb_refl.
Qed.

Lemma find_user_by_email_inserted_new s u :
  ~ In (user_email u) (map user_email (users s)) ->
  find_user_by_email (inserted s u) (user_email u) = Some u.
Proof.
  intros fresh. unfold find_user_by_email, inserted. simpl.
  apply find_app_new.
  - now apply (find_col_none user_email).
  - apply String.eqb_refl.
Qed.

Lemma create_admitted bcrypt_hash drole dstatus uuid now salt dto s :
  admits s uuid (create_data bcrypt_hash salt dto) = true ->
  let u := new_row drole dstatus uuid now (create_data bcrypt_hash salt dto) in
  create bcrypt_hash drole dstatus uuid now salt dto s
  = (Resolved (project_user (inserted s u) select_user u), inserted s u).
Proof.
  intros ok. simpl. unfold create.
  destruct (user_create_outcome drole dstatus uuid now
              (create_data bcrypt_hash salt dto) select_user s)
    as [(e & run)|(_ & run)]; [|exact run].
  exfalso. unfold user_create in run. unfold admits in ok.
  apply andb_true_iff in ok. destruct ok as [ok exist].
  rewrite <- negb_orb in ok. apply negb_true_iff in ok.
  rewrite ok, exist in run. discriminate run.
Qed.

(** X5 — a create that the store takes can be read back: findOne on the
    new id resolves with the very projection create returned, and the users
    that were there before are still found, unchanged, under their ids. *)
Theorem create_then_findOne
    (bcrypt_hash : string -> nat -> string -> string)
    (default_role : string) (default_status : UserStatus)
    (uuid : string) (now : Z) (salt : string) (dto : CreateUserDto)
    (s : Store) :
  admits s uuid (create_data bcrypt_hash salt dto) = true ->
  exists v s',
    create bcrypt_hash default_role default_status uuid now salt dto s
    = (Resolved v, s')
    /\ findOne uuid s' = (Resolved v, s')
    /\ length (users s') = S (length (users s))
    /\ forall id u, find_user s id = Some u -> find_user s' id = Some u.
Proof.
  intros ok. do 2 eexists. split; [now apply create_admitted|].
  apply admits_fresh in ok. destruct ok as (fresh & _).
  split; [|split].
  - apply findOne_found.
    now apply (find_user_inserted_new s
                 (new_row default_role default_status uuid now _)).
  - simpl. rewrite length_app. simpl. lia.
  - intros id u found. unfold find_user, inserted. simpl.
    now apply find_app_old.
Qed.

Lemma create_then_findOne_witness :
  admits Sample.store "u3" (create_data Sample.hash "salt" Sample.new_user)
  = true
  /\ exists v s',
       create Sample.hash "STUDENT" ACTIVE "u3" 30 "salt" Sample.new_user
              Sample.store = (Resolved v, s')
       /\ findOne "u3" s' = (Resolved v, s')
       /\ length (users s') = S (length (users Sample.store))
       /\ forall id u, find_user Sample.store id = Some u ->
                       find_user s' id = Some u.
Proof.
  split; [reflexivity|].
  apply (create_then_findOne Sample.hash "STUDENT" ACTIVE "u3" 30 "salt"
           Sample.new_user Sample.store).
  reflexivity.
Defined.

(** X6 — after a create that the store takes, findByEmail on the new
    user's email resolves with that user: its id is the new id and its
    [password] is the hash create computed, [bcrypt.hash(password, 10)]. *)
Theorem create_then_findByEmail
    (bcrypt_hash : string -> nat -> string -> string)
    (default_role : string) (default_status : UserStatus)
    (uuid : string) (now : Z) (salt : string) (dto : CreateUserDto)
    (s : Store) :
  admits s uuid (create_data bcrypt_hash salt dto) = true ->
  exists v s' v',
    create bcrypt_hash default_role default_status uuid now salt dto s
    = (Resolved v, s')
    /\ findByEmail (crt_email dto) s' = (Resolved (Some v'), s')
    /\ uv_id v' = Some uuid
    /\ uv_password v' = Some (bcrypt_hash (crt_password dto) 10%nat salt)
    /\ uv_name v' = uv_name v
    /\ uv_role v' = uv_role v
    /\ uv_status v' = uv_status v
    /\ uv_assignedCourses v' = uv_assignedCourses v.
Proof.
  intros ok. do 3 eexists. split; [now apply create_admitted|].
  apply admits_fresh in ok. destruct ok as (_ & fresh & _).
  split.
  - unfold findByEmail. rewrite findUnique_email.
    change (crt_email dto)
      with (user_email (new_row default_role default_status uuid now
                                (create_data bcrypt_hash salt dto))).
    rewrite find_user_by_email_inserted_new by exact fresh.
    reflexivity.
  - repeat split.
Qed.

Lemma create_then_findByEmail_witness :
  admits Sample.store "u3" (create_data Sample.hash "salt" Sample.new_user)
  = true
  /\ exists v s' v',
       create Sample.hash "STUDENT" ACTIVE "u3" 30 "salt" Sample.new_user
              Sample.store = (Resolved v, s')
       /\ findByEmail "cid@x.com" s' = (Resolved (Some v'), s')
       /\ uv_id v' = Some "u3"
       /\ uv_password v' = Some "$2a$10$saltpw123"
       /\ uv_name v' = uv_name v
       /\ uv_role v' = uv_role v
       /\ uv_status v' = uv_status v
       /\ uv_assignedCourses v' = uv_assignedCourses v.
Proof.
  split; [reflexivity|].
  apply (create_then_findByEmail Sample.hash "STUDENT" ACTIVE "u3" 30 "salt"
           Sample.new_user Sample.store).
  reflexivity.
Defined.

(** ** [remove] *)

Lemma find_user_deleted_other s id k :
  k <> id -> find_user (deleted s (where_id id)) k = find_user s k.
Proof.
  intros other. unfold find_user, deleted. simpl.
  apply find_remove_first_other. intros x same.
  apply String.eqb_eq in same. apply String.eqb_neq. congruence.
Qed.

(** X7 — remove(id) on an existing user resolves with the projection of
    the row as it was (id, name, email, status, createdAt and role, without
    [password] and without [assignedCourses]), takes exactly one row out of
    the user table and leaves every user with another id as it was; when ids
    are pairwise distinct, a findOne(id) or a second remove(id) that follows
    is rejected with NotFound. *)
Theorem remove_deletes_one_user (s : Store) (id : string) (u : User) :
  find_user s id = Some u ->
  exists s',
    remove id s = (Resolved (project_user s select_scalars u), s')
    /\ uv_password (project_user s select_scalars u) = None
    /\ uv_assignedCourses (project_user s select_scalars u) = None
    /\ S (length (users s')) = length (users s)
    /\ (forall k, k <> id -> find_user s' k = find_user s k)
    /\ (NoDup (map user_id (users s)) ->
        findOne id s' = (Rejected (not_found id), s')
        /\ remove id s' = (Rejected (not_found id), s')).
Proof.
  intros found. exists (deleted s (where_id id)).
  split; [|split; [reflexivity|split; [reflexivity|split; [|split]]]].
  - rewrite (remove_found s id u found).
    now apply user_delete_resolves.
  - simpl. now apply length_remove_first with (x := u).
  - intros k other. now apply find_user_deleted_other.
  - intros distinct.
    assert (find_user (deleted s (where_id id)) id = None) as gone
      by (apply (find_col_remove_first user_id); exact distinct).
    split; [now apply findOne_missing|now apply remove_missing].
Qed.

Lemma remove_deletes_one_user_witness :
  find_user Sample.store "u1" = Some Sample.ann
  /\ NoDup (map user_id (users Sample.store))
  /\ exists s',
       remove "u1" Sample.store
       = (Resolved (project_user Sample.store select_scalars Sample.ann), s')
       /\ S (length (users s')) = length (users Sample.store)
       /\ find_user s' "u2" = Some Sample.bob
       /\ findOne "u1" s' = (Rejected (not_found "u1"), s').
Proof.
  assert (NoDup (map user_id (users Sample.store))) as distinct
    by (simpl; repeat constructor; simpl; intuition discriminate).
  split; [reflexivity|]. split; [exact distinct|].
  destruct (remove_deletes_one_user Sample.store "u1" Sample.ann eq_refl)
    as (s' & run & _ & _ & fewer & others & gone).
  exists s'. split; [exact run|]. split; [exact fewer|].
  split; [rewrite others; [reflexivity|discriminate]|].
  apply (gone distinct).
Defined.

(** ** What [update] writes, and where *)






(** X9 — update(id, input) with a non-empty input.password, when the store
    takes the write, replaces the stored credential by
    [bcrypt.hash(input.password, 10)] (provided the hasher returns a
    non-empty string); the projection returned has no [password] key. *)
Theorem update_rehashes_password
    (bcrypt_hash : string -> nat -> string -> string)
    (salt : string) (s : Store) (id : string) (u : User)
    (dto : UpdateUserDto) (newPassword : string) :
  find_user s id = Some u ->
  upd_password dto = Some newPassword ->
  newPassword <> "" ->
  bcrypt_hash newPassword 10%nat salt <> "" ->
  accepts s (where_id id) (update_data bcrypt_hash salt dto) = true ->
  exists v s' u',
    update bcrypt_hash salt id dto s = (Resolved v, s')
    /\ find_user s' id = Some u'
    /\ user_password u' = bcrypt_hash newPassword 10%nat salt
    /\ uv_password v = None.
Proof.
  intros found given nonempty hashed ok.
  destruct (update_accepted bcrypt_hash salt s id dto u found ok)
    as (st & run & found').
  do 3 eexists. split; [exact run|]. split; [exact found'|].
  split; [|reflexivity].
  cbn [write_user user_password update_data arg_dto declared ud_password].
  rewrite given. unfold when_truthy.
  rewrite (truthy_nonempty newPassword nonempty).
  now rewrite (truthy_nonempty _ hashed).
Qed.

Lemma update_rehashes_password_witness :
  let dto := {| upd_name := None; upd_email := None;
                upd_password := Some "hunter3"; upd_role := None;
                upd_status := None; upd_assignedCourseIds := None |} in
  find_user Sample.store "u2" = Some Sample.bob
  /\ accepts Sample.store (where_id "u2")
             (update_data Sample.hash "pepper" dto) = true
  /\ exists v s' u',
       update Sample.hash "pepper" "u2" dto Sample.store = (Resolved v, s')
       /\ find_user s' "u2" = Some u'
       /\ user_password u' = "$2a$10$pepperhunter3"
       /\ uv_password v = None.
Proof.
  simpl. split; [reflexivity|]. split; [reflexivity|].
  apply (update_rehashes_password Sample.hash "pepper" Sample.store "u2"
           Sample.bob _ "hunter3");
    [reflexivity | reflexivity | discriminate | discriminate | reflexivity].
Defined.

(** X10 — name, email and role are written by update as soon as they are
    given, with no test of the value: when the store takes the write, the
    user afterwards has each given value (an empty name included) and keeps
    each column that was not given, and the projection returned shows the
    same three values. *)
Theorem update_writes_given_fields
    (bcrypt_hash : string -> nat -> string -> string)
    (salt : string) (s : Store) (id : string) (u : User)
    (dto : UpdateUserDto) :
  find_user s id = Some u ->
  accepts s (where_id id) (update_data bcrypt_hash salt dto) = true ->
  exists v s' u',
    update bcrypt_hash salt id dto s = (Resolved v, s')
    /\ find_user s' id = Some u'
    /\ user_name u' = or_else (upd_name dto) (user_name u)
    /\ user_email u' = or_else (upd_email dto) (user_email u)
    /\ user_role u'
       = or_else (option_map Role_value (upd_role dto)) (user_role u)
    /\ uv_name v = Some (user_name u')
    /\ uv_email v = Some (user_email u')
    /\ uv_role v = Some (user_role u').
Proof.
  intros found ok.
  destruct (update_accepted bcrypt_hash salt s id dto u found ok)
    as (st & run & found').
  do 3 eexists. split; [exact run|]. split; [exact found'|].
  repeat split.
Qed.

Lemma update_writes_given_fields_witness :
  let dto := {| upd_name := Some ""; upd_email := Some "robert@x.com";
                upd_password := None; upd_role := Some INSTRUCTOR;
                upd_status := None; upd_assignedCourseIds := None |} in
  find_user Sample.store "u2" = Some Sample.bob
  /\ accepts Sample.store (where_id "u2")
             (update_data Sample.hash "salt" dto) = true
  /\ exists v s' u',
       update Sample.hash "salt" "u2" dto Sample.store = (Resolved v, s')
       /\ find_user s' "u2" = Some u'
       /\ user_name u' = ""
       /\ user_email u' = "robert@x.com"
       /\ user_role u' = "INSTRUCTOR"
       /\ uv_name v = Some (user_name u')
       /\ uv_email v = Some (user_email u')
       /\ uv_role v = Some (user_role u').
Proof.
  simpl. split; [reflexivity|]. split; [reflexivity|].
  apply (update_writes_given_fields Sample.hash "salt" Sample.store "u2"
           Sample.bob
           {| upd_name := Some ""; upd_email := Some "robert@x.com";
              upd_password := None; upd_role := Some INSTRUCTOR;
              upd_status := None; upd_assignedCourseIds := None |});
    reflexivity.
Defined.

(** ** [updateStatus] as a narrow [update] *)

Lemma update_data_only_status bcrypt_hash salt status :
  status <> "" ->
  update_data bcrypt_hash salt (only_status status) = status_data status.
Proof.
  intros nonempty. unfold update_data, only_status, status_data. simpl.
  now rewrite (truthy_nonempty status nonempty).
Qed.

(** The [select] object decides the projection returned, not the write. *)
Lemma user_update_select w d sel sel' s :
  match user_update w d sel s with
  | (Rejected e, s1) => user_update w d sel' s = (Rejected e, s1)
  | (Resolved v, s1) =>
      exists u, v = project_user s1 sel u
                /\ user_update w d sel' s
                   = (Resolved (project_user s1 sel' u), s1)
  end.
Proof.
  unfold user_update.
  destruct (checked_status (ud_status d)) as [st|]; [|reflexivity].
  destruct (find (matches w) (users s)) as [u|]; [|reflexivity].
  destruct (_ || _); [reflexivity|].
  destruct (negb _); [reflexivity|].
  eexists. split; reflexivity.
Qed.

(** X11 — updateStatus(id, status), for a non-empty status, does to the
    store exactly what update(id, {status}) does, is rejected exactly when
    that update is, with the same exception, and otherwise resolves with
    that update's projection minus its [assignedCourses] key. *)
Theorem updateStatus_is_update_of_status
    (bcrypt_hash : string -> nat -> string -> string)
    (salt : string) (s : Store) (id : string) (status : string) :
  status <> "" ->
  snd (updateStatus id status s)
  = snd (update bcrypt_hash salt id (only_status status) s)
  /\ fst (updateStatus id status s)
     = match fst (update bcrypt_hash salt id (only_status status) s) with
       | Resolved v => Resolved (without_courses v)
       | Rejected e => Rejected e
       end.
Proof.
  intros nonempty. destruct (find_user s id) as [u|] eqn:found.
  - rewrite (update_found bcrypt_hash s id salt _ u found).
    rewrite (updateStatus_found s id status u found).
    rewrite (update_data_only_status bcrypt_hash salt status nonempty).
    pose proof (user_update_select (where_id id) (status_data status)
                  select_user select_scalars s) as same.
    destruct (user_update (where_id id) (status_data status) select_user s)
      as [[v|e] s1].
    + destruct same as (u0 & -> & ->). split; reflexivity.
    + rewrite same. split; reflexivity.
  - rewrite update_missing, updateStatus_missing by assumption.
    split; reflexivity.
Qed.

Lemma updateStatus_is_update_of_status_witness :
  "INACTIVE" <> ""
  /\ snd (updateStatus "u1" "INACTIVE" Sample.store)
     = snd (update Sample.hash "salt" "u1" (only_status "INACTIVE")
                   Sample.store)
  /\ fst (updateStatus "u1" "INACTIVE" Sample.store)
     = match fst (update Sample.hash "salt" "u1" (only_status "INACTIVE")
                         Sample.store) with
       | Resolved v => Resolved (without_courses v)
       | Rejected e => Rejected e
       end.
Proof.
  assert ("INACTIVE" <> "") as nonempty by discriminate.
  split; [exact nonempty|].
  apply (updateStatus_is_update_of_status Sample.hash "salt" Sample.store
           "u1" "INACTIVE" nonempty).
Defined.

(** ** The validators of the status and the truthiness test *)

Lemma member_nonempty status member :
  UserStatus_of_string status = Some member -> status <> "".
Proof. now intros parsed ->. Qed.

(** X13 — an input whose status passes the validators of
    [UpdateUserDto.status] ([@IsOptional() @IsEnum(UserStatus)]) never falls
    in the gap of the truthiness test: update hands the status over to the
    store as it was given, the call is never rejected for its status, and,
    on an existing user and when the store takes the write, a status that
    was given is the stored status afterwards. *)
Theorem validated_status_is_written
    (bcrypt_hash : string -> nat -> string -> string)
    (salt : string) (s : Store) (id : string) (dto : UpdateUserDto) :
  status_validated dto = true ->
  ud_status (update_data bcrypt_hash salt dto) = upd_status dto
  /\ fst (update bcrypt_hash salt id dto s) <> Rejected ValidationFailure
  /\ (forall u status,
        find_user s id = Some u ->
        upd_status dto = Some status ->
        accepts s (where_id id) (update_data bcrypt_hash salt dto) = true ->
        exists u',
          find_user (snd (update bcrypt_hash salt id dto s)) id = Some u'
          /\ UserStatus_value (user_status u') = status).
Proof.
  unfold status_validated, IsOptional, IsEnum_UserStatus. intros valid.
  assert (ud_status (update_data bcrypt_hash salt dto) = upd_status dto)
    as handed.
  { cbn [update_data arg_dto declared ud_status]. destruct (upd_status dto) as [status|];
      [|reflexivity].
    destruct (UserStatus_of_string status) as [member|] eqn:parsed;
      [|discriminate].
    simpl. now rewrite (truthy_nonempty status (member_nonempty _ _ parsed)). }
  assert (exists st,
            checked_status (ud_status (update_data bcrypt_hash salt dto))
            = Some st
            /\ forall status, upd_status dto = Some status ->
                 exists member, st = Some member
                                /\ UserStatus_value member = status)
    as (st0 & checked & meaning).
  { rewrite handed. destruct (upd_status dto) as [status|].
    - simpl. destruct (UserStatus_of_string status) as [member|] eqn:parsed;
        [|discriminate].
      eexists. split; [reflexivity|]. intros ? [= <-].
      exists member. split; [reflexivity|].
      revert parsed. unfold UserStatus_of_string.
      destruct (String.eqb status "ACTIVE") eqn:a;
        [apply String.eqb_eq in a; now intros [= <-]|].
      destruct (String.eqb status "INACTIVE") eqn:i;
        [apply String.eqb_eq in i; now intros [= <-]|].
      destruct (String.eqb status "BANNED") eqn:b;
        [apply String.eqb_eq in b; now intros [= <-]|discriminate].
    - eexists. split; [reflexivity|]. discriminate. }
  split; [exact handed|]. split.
  - destruct (find_user s id) as [u|] eqn:found.
    + rewrite (update_found bcrypt_hash s id salt dto u found).
      unfold user_update. rewrite checked.
      destruct (find _ _); [|discriminate].
      destruct (_ || _); [discriminate|].
      destruct (negb _); discriminate.
    + rewrite update_missing by assumption. discriminate.
  - intros u status found given ok.
    destruct (user_update_accepted (where_id id)
                (update_data bcrypt_hash salt dto) select_user s u found ok)
      as (st & checked' & run).
    rewrite checked in checked'. injection checked' as <-.
    destruct (meaning status given) as (member & -> & <-).
    rewrite (update_found bcrypt_hash s id salt dto u found), run.
    cbn [snd]. rewrite find_user_written, found by reflexivity.
    eexists. split; reflexivity.
Qed.

Lemma validated_status_is_written_witness :
  status_validated (only_status "BANNED") = true
  /\ ud_status (update_data Sample.hash "salt" (only_status "BANNED"))
     = Some "BANNED"
  /\ fst (update Sample.hash "salt" "u1" (only_status "BANNED") Sample.store)
     <> Rejected ValidationFailure
  /\ exists u',
       find_user (snd (update Sample.hash "salt" "u1" (only_status "BANNED")
                              Sample.store)) "u1" = Some u'
       /\ UserStatus_value (user_status u') = "BANNED".
Proof.
  destruct (validated_status_is_written Sample.hash "salt" Sample.store "u1"
              (only_status "BANNED") eq_refl) as (handed & never & stored).
  split; [reflexivity|]. split; [exact handed|]. split; [exact never|].
  apply (stored Sample.ann "BANNED"); reflexivity.
Defined.

(** ** The courses of a user, listed and expanded *)

Lemma curriculum_ids s u :
  map cv_id (query_courses courses_newest_first (assigned_courses s u))
  = map Some (map course_id
                  (orderBy course_createdAt desc (assigned_courses s u))).
Proof. unfold query_courses. simpl. now rewrite !map_map. Qed.

Lemma find_user_In s id u : find_user s id = Some u -> In u (users s).
Proof. intros found. now apply find_some in found. Qed.

(** X12 — getUserCourses(id) and findOne(id) speak of the same courses:
    for an existing user, the [id] and [title] pairs of the courses
    getUserCourses resolves with are those of the [assignedCourses] of
    findOne's projection, each as often, in a possibly different order. *)
Theorem getUserCourses_lists_courses_of_findOne
    (s : Store) (id : string) (u : User) :
  find_user s id = Some u ->
  exists v listed expanded,
    findOne id s = (Resolved v, s)
    /\ uv_assignedCourses v = Some listed
    /\ getUserCourses id s = (Resolved (Some expanded), s)
    /\ Permutation (map (fun cv => (cv_id cv, cv_title cv)) expanded)
                   (map (fun cv => (cv_id cv, cv_title cv)) listed).
Proof.
  intros found. do 3 eexists.
  split; [exact (findOne_found s id u found)|].
  split; [apply select_user_courses|].
  split; [exact (getUserCourses_found s id u found)|].
  unfold query_courses. simpl. rewrite !map_map. simpl.
  apply Permutation_map with (f := fun c => (Some (course_id c),
                                             Some (course_title c))).
  apply orderBy_perm.
Qed.

Lemma getUserCourses_lists_courses_of_findOne_witness :
  find_user Sample.store "u1" = Some Sample.ann
  /\ exists v listed expanded,
       findOne "u1" Sample.store = (Resolved v, Sample.store)
       /\ uv_assignedCourses v = Some listed
       /\ getUserCourses "u1" Sample.store
          = (Resolved (Some expanded), Sample.store)
       /\ Permutation (map (fun cv => (cv_id cv, cv_title cv)) expanded)
                      (map (fun cv => (cv_id cv, cv_title cv)) listed).
Proof.
  split; [reflexivity|].
  apply (getUserCourses_lists_courses_of_findOne Sample.store "u1"
           Sample.ann).
  reflexivity.
Defined.

(** X14 — in a store where every association points to a course of the
    course table, getUserCourses(id) on an existing user resolves with
    exactly one course for each of the user's associations: the ids of the
    courses returned are the associated ids, in a possibly different
    order. *)
Theorem getUserCourses_covers_associations
    (s : Store) (id : string) (u : User) :
  no_dangling s ->
  find_user s id = Some u ->
  exists expanded,
    getUserCourses id s = (Resolved (Some expanded), s)
    /\ Permutation (map cv_id expanded)
                   (map Some (user_assignedCourses u))
    /\ length expanded = length (user_assignedCourses u).
Proof.
  intros valid found. eexists.
  split; [exact (getUserCourses_found s id u found)|].
  assert (Permutation
            (map cv_id (query_courses courses_newest_first
                                      (assigned_courses s u)))
            (map Some (user_assignedCourses u))) as same.
  { rewrite curriculum_ids.
    apply Permutation_map.
    transitivity (map course_id (assigned_courses s u)).
    - apply Permutation_map, orderBy_perm.
    - unfold assigned_courses. rewrite join_courses_ids; [reflexivity|].
      unfold no_dangling in valid. rewrite Forall_forall in valid.
      apply valid. now apply find_user_In with (id := id). }
  split; [exact same|].
  apply Permutation_length in same. now rewrite !length_map in same.
Qed.

Lemma getUserCourses_covers_associations_witness :
  no_dangling Sample.store
  /\ find_user Sample.store "u1" = Some Sample.ann
  /\ exists expanded,
       getUserCourses "u1" Sample.store
       = (Resolved (Some expanded), Sample.store)
       /\ Permutation (map cv_id expanded) [Some "c1"; Some "c2"]
       /\ length expanded = 2%nat.
Proof.
  assert (no_dangling Sample.store) as fine by (repeat constructor).
  split; [exact fine|]. split; [reflexivity|].
  apply (getUserCourses_covers_associations Sample.store "u1" Sample.ann
           fine).
  reflexivity.
Defined.



(** ** [findAll] and the lookups *)

Lemma find_user_of_row s u :
  NoDup (map user_id (users s)) ->
  In u (users s) -> find_user s (user_id u) = Some u.
Proof.
  unfold find_user. induction (users s) as [|x r IH]; simpl; [tauto|].
  intros nd inu. inversion nd as [|? ? fresh nd']; subst.
  destruct (String.eqb (user_id x) (user_id u)) eqn:same.
  - destruct inu as [->|inu]; [reflexivity|].
    apply String.eqb_eq in same. exfalso. apply fresh.
    rewrite same. now apply in_map.
  - destruct inu as [->|inu]; [|auto].
    now rewrite String.eqb_refl in same.
Qed.

(** X16 — findAll never fails and lists the users of the store one by one,
    in the order of the table; when ids are pairwise distinct every
    projection it lists is the one findOne resolves with for that user's
    id, and every projection findOne resolves with is listed. *)
Theorem findAll_agrees_with_findOne (s : Store) :
  exists vs,
    findAll s = (Resolved vs, s)
    /\ map uv_id vs = map (fun u => Some (user_id u)) (users s)
    /\ (forall id v, findOne id s = (Resolved v, s) -> In v vs)
    /\ (NoDup (map user_id (users s)) ->
        Forall (fun v => exists id, uv_id v = Some id
                                    /\ findOne id s = (Resolved v, s)) vs).
Proof.
  eexists. split; [reflexivity|]. split; [|split].
  - now rewrite map_map.
  - intros id v run. destruct (find_user s id) as [u|] eqn:found.
    + rewrite (findOne_found s id u found) in run. injection run as <-.
      apply in_map. now apply find_user_In with (id := id).
    + rewrite findOne_missing in run by assumption. discriminate run.
  - intros distinct. apply Forall_forall. intros v inv.
    apply in_map_iff in inv. destruct inv as (u & <- & inu).
    exists (user_id u). split; [reflexivity|].
    apply findOne_found. now apply find_user_of_row.
Qed.

Lemma findAll_agrees_with_findOne_witness :
  NoDup (map user_id (users Sample.store))
  /\ exists vs,
       findAll Sample.store = (Resolved vs, Sample.store)
       /\ map uv_id vs = [Some "u1"; Some "u2"]
       /\ Forall (fun v => exists id,
                    uv_id v = Some id
                    /\ findOne id Sample.store = (Resolved v, Sample.store))
                 vs.
Proof.
  assert (NoDup (map user_id (users Sample.store))) as distinct
    by (simpl; repeat constructor; simpl; intuition discriminate).
  split; [exact distinct|].
  destruct (findAll_agrees_with_findOne Sample.store)
    as (vs & run & ids & _ & each).
  exists vs. split; [exact run|]. split; [exact ids|]. exact (each distinct).
Defined.

(** ** Changing the email *)






(** ** Repeating an update *)










(** ** [updateStatus], whatever the status *)

(** X19 — updateStatus(id, status) on an existing user changes nothing of
    that user but the status: for every string, member of the enumeration or
    not, the user is found afterwards with the id, name, email, stored
    password hash, role, createdAt and course associations it had; its
    status is the given one when that is a member, and the former one
    otherwise. *)
Theorem updateStatus_changes_status_only
    (s : Store) (id : string) (u : User) (status : string) :
  find_user s id = Some u ->
  exists u',
    find_user (snd (updateStatus id status s)) id = Some u'
    /\ user_id u' = user_id u
    /\ user_name u' = user_name u
    /\ user_email u' = user_email u
    /\ user_password u' = user_password u
    /\ user_role u' = user_role u
    /\ user_createdAt u' = user_createdAt u
    /\ user_assignedCourses u' = user_assignedCourses u
    /\ user_status u' = match UserStatus_of_string status with
                        | Some member => member
                        | None => user_status u
                        end.
Proof.
  intros found. rewrite (updateStatus_found s id status u found).
  destruct (UserStatus_of_string status) as [member|] eqn:parsed.
  - assert (checked_status (ud_status (status_data status))
            = Some (Some member)) as checked
      by (simpl; now rewrite parsed).
    assert (accepts s (where_id id) (status_data status) = true) as ok
      by (unfold accepts; now rewrite checked).
    destruct (user_update_accepted (where_id id) (status_data status)
                select_scalars s u found ok) as (st & checked' & ->).
    rewrite checked in checked'. injection checked' as <-.
    cbn [snd]. rewrite find_user_written, found by reflexivity.
    eexists. split; [reflexivity|]. repeat split.
  - rewrite user_update_invalid_status
      by (simpl; now rewrite parsed).
    exists u. repeat split. exact found.
Qed.

Lemma updateStatus_changes_status_only_witness :
  find_user Sample.store "u1" = Some Sample.ann
  /\ exists u',
       find_user (snd (updateStatus "u1" "BANNED" Sample.store)) "u1"
       = Some u'
       /\ user_password u' = "$2a$10$saltpw123"
       /\ user_assignedCourses u' = ["c1"; "c2"]
       /\ user_status u' = BANNED.
Proof.
  split; [reflexivity|].
  destruct (updateStatus_changes_status_only Sample.store "u1" Sample.ann
              "BANNED" eq_refl)
    as (u' & found & _ & _ & _ & hash & _ & _ & assoc & status).
  exists u'. split; [exact found|]. split; [exact hash|].
  split; [exact assoc | exact status].
Defined.
